(** * nf_tables hardware offload: flow-rule compiler and commit coordinator

    A shallow embedding of [net/netfilter/nf_tables_offload.c] and of
    [include/net/netfilter/nf_tables_offload.h], followed by the properties
    of the compiler ([nft_flow_rule_create]), of the dependency tracker
    ([nft_offload_update_dependency]), of the commit walk
    ([nft_flow_rule_offload_commit]) and of the block binder.

    Conventions.
    - C integers are [Z]; [int] arithmetic that may leave its range is
      wrapped with [int_wrap].
    - A nullable pointer is an [option]; [ERR_PTR(e)] is [inr e].
    - The slab allocator is an explicit state ([kmem]): a finite map from
      live addresses to what was allocated there, and an oracle telling which
      of the coming allocations fail.
    - Driver code reached through function pointers is a function of an
      opaque driver state [HW]; every such call is also appended to a trace,
      so that "which callback ran, in which order" can be stated. *)

From Stdlib Require Import ZArith List Strings.Byte Ascii String Lia.
From stdpp Require Import gmap list.

Local Open Scope Z_scope.

(** ** Constants of the headers this file includes *)

(** [include/uapi/asm-generic/errno*.h] *)
Definition ENOMEM : Z := 12.
Definition EOPNOTSUPP : Z := 95.

(** [include/uapi/linux/netfilter.h] *)
Definition NF_DROP : Z := 0.
Definition NF_ACCEPT : Z := 1.
Definition NFPROTO_IPV4 : Z := 2.
Definition NFPROTO_NETDEV : Z := 5.

(** [include/uapi/linux/netfilter/nf_tables.h], [enum nf_tables_msg_types] *)
Definition NFT_MSG_NEWCHAIN : Z := 3.
Definition NFT_MSG_DELCHAIN : Z := 5.
Definition NFT_MSG_NEWRULE : Z := 6.
Definition NFT_MSG_DELRULE : Z := 8.

(** [enum nft_chain_flags] *)
Definition NFT_BASE_CHAIN : Z := 1.
Definition NFT_CHAIN_HW_OFFLOAD : Z := 2.

(** [include/uapi/linux/netlink.h] *)
Definition NLM_F_REPLACE : Z := 256.
Definition NLM_F_APPEND : Z := 2048.

(** [include/uapi/linux/if_ether.h], [include/uapi/linux/if.h] *)
Definition ETH_P_ALL : Z := 3.
Definition IFNAMSIZ : nat := 16.

(** [include/net/netfilter/nf_tables_offload.h] *)
Definition NFT_OFFLOAD_F_ACTION : Z := 1.
Definition NFT_REG32_15 : nat := 23.

(** ** Machine integers and raw objects *)

(** [int] is 32 bits wide, two's complement. *)
Definition int_wrap (z : Z) : Z := (z + 2 ^ 31) mod 2 ^ 32 - 2 ^ 31.

(** [flag_set v f] is the C test [v & f]. *)
Definition flag_set (v f : Z) : bool := negb (Z.land v f =? 0).

(** A [__be16] object is kept as the two bytes it occupies, in memory order. *)
Definition be16 : Type := byte * byte.

Definition u8_byte (z : Z) : byte :=
  match Byte.of_N (Z.to_N (z mod 256)) with
  | Some b => b
  | None => x00
  end.

(** The bytes of a [u16] value stored by the CPU, as [__be16 proto = ETH_P_ALL]
    stores it (no byte swap is applied by the source). *)
Definition u16_store (big_endian : bool) (v : Z) : be16 :=
  let lo := u8_byte v in
  let hi := u8_byte (v / 256) in
  if big_endian then (hi, lo) else (lo, hi).

(** [kzalloc] returns zeroed memory; [Zeroed T] names the all-zero object of
    a structure whose layout is declared outside this file. *)
Class Zeroed (T : Type) := zeroed : T.

(** ** The allocator *)

Abbreviation addr := nat (only parsing).

(** What lives at an address: a [struct nft_flow_rule], or a
    [struct flow_rule] with room for [num_actions] action entries. *)
Inductive kobj :=
| KNftFlowRule
| KFlowRule (num_actions : Z).

Record kmem := Kmem {
  live : gmap nat kobj;
  oom : list bool       (* true: the next allocation returns NULL *)
}.

Definition kzalloc (k : kobj) (m : kmem) : option addr * kmem :=
  match oom m with
  | true :: later => (None, Kmem (live m) later)
  | o =>
      let a := fresh (dom (live m)) in
      (Some a, Kmem (<[a := k]> (live m)) (tail o))
  end.

Definition kfree (a : addr) (m : kmem) : kmem :=
  Kmem (delete a (live m)) (oom m).

(** ** include/net/netfilter/nf_tables_offload.h *)

Record nft_offload_reg := {
  reg_key : Z;
  reg_len : Z;
  reg_base_offset : Z;
  reg_offset : Z;
  reg_mask : list byte
}.

Inductive nft_offload_dep_type :=
| NFT_OFFLOAD_DEP_UNSPEC
| NFT_OFFLOAD_DEP_NETWORK
| NFT_OFFLOAD_DEP_TRANSPORT.

Record nft_offload_dep := {
  dep_type : nft_offload_dep_type;
  l3num : be16;
  protonum : byte
}.

Record nft_offload_ctx := {
  dep : nft_offload_dep;
  num_actions : Z;
  regs : list nft_offload_reg
}.

Definition zero_reg : nft_offload_reg :=
  {| reg_key := 0; reg_len := 0; reg_base_offset := 0; reg_offset := 0;
     reg_mask := repeat x00 16 |}.

(** The initialiser [{ .dep = { .type = NFT_OFFLOAD_DEP_UNSPEC } }]: every
    other member is zero. *)
Definition ctx_init : nft_offload_ctx :=
  {| dep := {| dep_type := NFT_OFFLOAD_DEP_UNSPEC; l3num := (x00, x00);
               protonum := x00 |};
     num_actions := 0;
     regs := repeat zero_reg (S NFT_REG32_15) |}.

(** ** Dependency tracking *)

Definition nft_offload_set_dependency
    (ctx : nft_offload_ctx) (type : nft_offload_dep_type) : nft_offload_ctx :=
  {| dep := {| dep_type := type; l3num := l3num (dep ctx);
               protonum := protonum (dep ctx) |};
     num_actions := num_actions ctx;
     regs := regs ctx |}.

(** [data] is the memory behind the [const void *]: [data i] is the byte at
    offset [i].  The first component of the result tells whether [WARN_ON]
    fired. *)
Definition nft_offload_update_dependency
    (ctx : nft_offload_ctx) (data : nat -> byte) (len : Z)
  : bool * nft_offload_ctx :=
  let d := dep ctx in
  let '(warned, d') :=
    match dep_type d with
    | NFT_OFFLOAD_DEP_NETWORK =>
        (negb (len =? 2),
         {| dep_type := dep_type d; l3num := (data 0%nat, data 1%nat);
            protonum := protonum d |})
    | NFT_OFFLOAD_DEP_TRANSPORT =>
        (negb (len =? 1),
         {| dep_type := dep_type d; l3num := l3num d;
            protonum := data 0%nat |})
    | NFT_OFFLOAD_DEP_UNSPEC => (false, d)
    end in
  (warned,
   {| dep := {| dep_type := NFT_OFFLOAD_DEP_UNSPEC; l3num := l3num d';
                protonum := protonum d' |};
      num_actions := num_actions ctx;
      regs := regs ctx |}).

(** ** Register descriptors *)

(** The macro [NFT_OFFLOAD_MATCH(__key, __base, __field, __len, __reg)].  The
    two [offsetof] values are passed as [base_offset] and [offset].  The four
    members written are [u32] objects, so each value is stored modulo
    [2 ^ 32].  [memset] then writes [(__reg)->len] bytes of [0xff] from the
    start of the mask: [None] stands for a length beyond the mask object,
    where the bytes land outside it. *)
Definition NFT_OFFLOAD_MATCH (key base_offset offset len : Z)
    (reg : nft_offload_reg) : option nft_offload_reg :=
  let n := Z.to_nat (len mod 2 ^ 32) in
  if (n <=? length (reg_mask reg))%nat
  then Some {| reg_key := key mod 2 ^ 32;
               reg_len := len mod 2 ^ 32;
               reg_base_offset := base_offset mod 2 ^ 32;
               reg_offset := offset mod 2 ^ 32;
               reg_mask := repeat xff n ++ drop n (reg_mask reg) |}
  else None.

Section Offload.

(** Structures of [include/net/flow_offload.h] and [include/net/flow_dissector.h]
    whose members this file never names; [HW] is the state of the drivers
    behind the function pointers. *)
Context {flow_dissector nft_flow_key flow_action_entry HW : Type}.
Context `{!Zeroed flow_dissector, !Zeroed nft_flow_key,
          !Zeroed flow_action_entry}.

(** Byte order of the CPU the kernel is built for. *)
Context (host_big_endian : bool).

(** ** Flow rules *)

Record nft_flow_match := {
  dissector : flow_dissector;
  key : nft_flow_key;
  mask : nft_flow_key
}.

(** What the expressions write through a [struct nft_flow_rule *]: the
    protocol tag, the embedded match storage (to which
    [flow->rule->match.{dissector,mask,key}] point), and the entries of the
    action list of the [struct flow_rule] it owns. *)
Record nft_flow_body := {
  proto : be16;
  flow_match : nft_flow_match;
  entries : list flow_action_entry
}.

(** A flow rule is its two allocations, [flow] and [flow->rule], the
    capacity [flow->rule->action.num_entries] fixed when the action list was
    allocated, and the contents held there. *)
Record nft_flow_rule := {
  flow_addr : addr;
  rule_addr : addr;
  num_entries : Z;
  body : nft_flow_body
}.

Definition set_proto (p : be16) (b : nft_flow_body) : nft_flow_body :=
  {| proto := p; flow_match := flow_match b; entries := entries b |}.

(** Zeroed match storage, as [kzalloc] leaves it. *)
Definition zero_match : nft_flow_match :=
  {| dissector := zeroed; key := zeroed; mask := zeroed |}.

(** The contents right after [nft_flow_rule_alloc]: zeroed by [kzalloc], with
    room for [num_actions] action entries. *)
Definition flow_body_init (num_actions : Z) : nft_flow_body :=
  {| proto := (x00, x00);
     flow_match := zero_match;
     entries := repeat zeroed (Z.to_nat num_actions) |}.

(** ** Rules and expressions *)

(** The [offload] member of [struct nft_expr_ops], called with the context,
    the flow rule and the expression: the expression is passed as its private
    data; the context and the flow contents are updated in place. *)
Definition offload_fn : Type :=
  nft_offload_ctx -> nft_flow_body -> list byte ->
  Z * nft_offload_ctx * nft_flow_body.

Record nft_expr_ops := {
  offload : option offload_fn;
  offload_flags : Z
}.

Record nft_expr := {
  ops : option nft_expr_ops;
  expr_data : list byte
}.

(** The expressions between [nft_expr_first] and [nft_expr_last], in
    [nft_expr_next] order. *)
Record nft_rule := {
  exprs : list nft_expr
}.

(** ** The compiler *)

(** Modelled from the spec: [flow_rule_alloc] of [net/core/flow_offload.c], a
    file outside this directory.  It allocates the flow rule with an action
    list of the requested, fixed capacity. *)
Definition flow_rule_alloc (num_actions : Z) (m : kmem)
  : option (addr * Z * list flow_action_entry) * kmem :=
  let n := num_actions mod 2 ^ 32 in      (* the parameter is [unsigned int] *)
  match kzalloc (KFlowRule n) m with
  | (None, m') => (None, m')
  | (Some r, m') => (Some (r, n, repeat zeroed (Z.to_nat n)), m')
  end.

(** The three assignments that make [flow->rule->match] point to the match
    storage embedded in [flow] are what [flow_rule_of] below reads. *)
Definition nft_flow_rule_alloc (num_actions : Z) (m : kmem)
  : option nft_flow_rule * kmem :=
  match kzalloc KNftFlowRule m with
  | (None, m1) => (None, m1)
  | (Some flow, m1) =>
      match flow_rule_alloc num_actions m1 with
      | (None, m2) => (None, kfree flow m2)
      | (Some (r, n, act), m2) =>
          (Some {| flow_addr := flow; rule_addr := r; num_entries := n;
                   body := {| proto := (x00, x00);
                              flow_match := zero_match;
                              entries := act |} |}, m2)
      end
  end.

Definition nft_flow_rule_destroy (flow : nft_flow_rule) (m : kmem) : kmem :=
  kfree (flow_addr flow) (kfree (rule_addr flow) m).

(** First loop of [nft_flow_rule_create]: [num_actions] after the walk. *)
Fixpoint count_actions (es : list nft_expr) (num_actions : Z) : Z :=
  match es with
  | [] => num_actions
  | expr :: rest =>
      match ops expr with
      | None => num_actions
      | Some o =>
          count_actions rest
            (if flag_set (offload_flags o) NFT_OFFLOAD_F_ACTION
             then int_wrap (num_actions + 1) else num_actions)
      end
  end.

(** Second loop: [inr err] is the jump to [err_out]. *)
Fixpoint offload_exprs (es : list nft_expr) (ctx : nft_offload_ctx)
    (flow : nft_flow_body) : (nft_offload_ctx * nft_flow_body) + Z :=
  match es with
  | [] => inl (ctx, flow)
  | expr :: rest =>
      match ops expr with
      | None => inl (ctx, flow)
      | Some o =>
          match offload o with
          | None => inr (- EOPNOTSUPP)
          | Some f =>
              let '(err, ctx', flow') := f ctx flow (expr_data expr) in
              if err <? 0 then inr err else offload_exprs rest ctx' flow'
          end
      end
  end.

Definition nft_flow_rule_create (rule : nft_rule) (m : kmem)
  : (nft_flow_rule + Z) * kmem :=
  let n := count_actions (exprs rule) 0 in
  match nft_flow_rule_alloc n m with
  | (None, m1) => (inr (- ENOMEM), m1)
  | (Some flow, m1) =>
      match offload_exprs (exprs rule) ctx_init (body flow) with
      | inl (ctx, b) =>
          (inl {| flow_addr := flow_addr flow; rule_addr := rule_addr flow;
                  num_entries := num_entries flow;
                  body := set_proto (l3num (dep ctx)) b |}, m1)
      | inr err => (inr err, nft_flow_rule_destroy flow m1)
      end
  end.

(** ** Blocks, devices, chains *)

Inductive tc_setup_type :=
| TC_SETUP_BLOCK
| TC_SETUP_CLSFLOWER.

Inductive flow_cls_command :=
| FLOW_CLS_REPLACE
| FLOW_CLS_DESTROY.

Inductive flow_block_command :=
| FLOW_BLOCK_BIND
| FLOW_BLOCK_UNBIND.

Inductive flow_block_binder_type :=
| FLOW_BLOCK_BINDER_TYPE_UNSPEC
| FLOW_BLOCK_BINDER_TYPE_CLSACT_INGRESS
| FLOW_BLOCK_BINDER_TYPE_CLSACT_EGRESS.

(** What a driver reaches from the [struct flow_rule *] of a command: the
    action list, and the match storage its pointers designate. *)
Record flow_rule := {
  fr_addr : addr;
  fr_match : nft_flow_match;
  fr_num_entries : Z;
  fr_entries : list flow_action_entry
}.

Definition flow_rule_of (flow : nft_flow_rule) : flow_rule :=
  {| fr_addr := rule_addr flow;
     fr_match := flow_match (body flow);
     fr_num_entries := num_entries flow;
     fr_entries := entries (body flow) |}.

Record flow_cls_offload := {
  common_protocol : be16;
  command : flow_cls_command;
  cookie : addr;
  cls_rule : option flow_rule
}.

(** [cb] is called with the setup type, the command and [cb_priv]. *)
Record flow_block_cb := {
  cb : tc_setup_type -> flow_cls_offload -> Z -> HW -> Z * HW;
  cb_priv : Z
}.

Record flow_block := {
  cb_list : list flow_block_cb
}.

(** [bo_block] is the block [bo.block] points to: a driver reads and writes
    it through the descriptor, and the caller stores it back. *)
Record flow_block_offload := {
  bo_command : flow_block_command;
  bo_binder_type : flow_block_binder_type;
  bo_block : flow_block;
  bo_cb_list : list flow_block_cb
}.

Record net_device := {
  name : string;
  ndo_setup_tc :
    option (tc_setup_type -> flow_block_offload -> HW ->
            Z * flow_block_offload * HW)
}.

(** A driver-agnostic callback, called with the device, its [cb_priv], the
    setup type and the block descriptor; what it returns is not looked at. *)
Definition flow_indr_block_bind_cb_t : Type :=
  net_device -> Z -> tc_setup_type -> flow_block_offload -> HW ->
  flow_block_offload * HW.

(** Functions of [net/core/flow_offload.c] called from here. *)
Context (flow_indr_block_call :
           net_device -> flow_block_offload -> flow_block_command -> HW ->
           flow_block_offload * HW).
Context (flow_block_cb_free : flow_block_cb -> HW -> HW).

(** The members of [struct nft_base_chain] used here.  [struct nft_chain] is
    embedded in it; for a chain without [NFT_BASE_CHAIN] the surrounding
    members do not exist and the code does not read them. *)
Record nft_base_chain := {
  ops_dev : option net_device;
  dev_name : string;
  flow_block_of : flow_block
}.

Record nft_chain := {
  chain_flags : Z;
  basechain_of : nft_base_chain
}.

Definition nft_is_base_chain (chain : nft_chain) : bool :=
  flag_set (chain_flags chain) NFT_BASE_CHAIN.

Definition set_flow_block (b : flow_block) (bc : nft_base_chain)
  : nft_base_chain :=
  {| ops_dev := ops_dev bc; dev_name := dev_name bc; flow_block_of := b |}.

Record nft_table := {
  family : Z;
  table_chains : list nat          (* pointers into the chain store *)
}.

(** One record of the commit list.  The members behind [nft_trans_rule],
    [nft_trans_flow_rule] and [nft_trans_chain_policy] are laid out here
    side by side.  The policy member is the [u8 policy] of
    [struct nft_trans_chain] ([include/net/netfilter/nf_tables.h]): one
    byte, so that an assignment of [-1] ("unset") leaves [0xff] in it. *)
Record nft_trans := {
  msg_type : Z;
  ctx_family : Z;
  ctx_chain : nat;
  ctx_flags : Z;
  trans_rule : addr;
  trans_flow_rule : option nft_flow_rule;
  trans_chain_policy : byte
}.

(** [nft_trans_chain_policy(trans)] as an rvalue: the [u8] member, promoted
    to [int] where it is compared. *)
Definition nft_trans_chain_policy (trans : nft_trans) : Z :=
  Z.of_N (Byte.to_N (trans_chain_policy trans)).

(** ** The state the commit runs in *)

Inductive event :=
| EvBlockCb (priv : Z) (type : tc_setup_type) (data : flow_cls_offload)
| EvNdoSetupTc (dev : string) (cmd : flow_block_command)
| EvIndrBlockCall (dev : string) (cmd : flow_block_command)
| EvIndrCb (dev : string) (priv : Z) (cmd : flow_block_command)
| EvBlockCbFree (priv : Z).

(** Driver state and the log of calls into driver code. *)
Definition dstate : Type := HW * list event.

Record net := {
  mem : kmem;
  drv : dstate;
  chains : nat -> nft_chain;       (* the chains, by address *)
  tables : list nft_table;
  commit_list : list nft_trans
}.

Definition set_drv (s : dstate) (w : net) : net :=
  {| mem := mem w; drv := s; chains := chains w; tables := tables w;
     commit_list := commit_list w |}.

Definition set_mem (m : kmem) (w : net) : net :=
  {| mem := m; drv := drv w; chains := chains w; tables := tables w;
     commit_list := commit_list w |}.

Definition set_basechain (c : nat) (bc : nft_base_chain) (w : net) : net :=
  {| mem := mem w; drv := drv w;
     chains := fun p =>
       if Nat.eqb p c
       then {| chain_flags := chain_flags (chains w c); basechain_of := bc |}
       else chains w p;
     tables := tables w; commit_list := commit_list w |}.

Definition log (e : event) (s : dstate) : dstate := (fst s, snd s ++ [e]).

(** [strncmp] on names without embedded NUL: the sign of the result is that
    of the first differing character among the first [n]. *)
Fixpoint strncmp (s1 s2 : string) (n : nat) : Z :=
  match n with
  | O => 0
  | S n' =>
      match s1, s2 with
      | EmptyString, EmptyString => 0
      | EmptyString, String c _ => - Z.of_nat (nat_of_ascii c)
      | String c _, EmptyString => Z.of_nat (nat_of_ascii c)
      | String c1 r1, String c2 r2 =>
          if Ascii.eqb c1 c2 then strncmp r1 r2 n'
          else Z.of_nat (nat_of_ascii c1) - Z.of_nat (nat_of_ascii c2)
      end
  end.

(** ** Per-rule commands *)

(** [block_cb->cb(type, type_data, block_cb->cb_priv)] *)
Definition call_cb (block_cb : flow_block_cb) (type : tc_setup_type)
    (type_data : flow_cls_offload) (s : dstate) : Z * dstate :=
  let '(err, h) := cb block_cb type type_data (cb_priv block_cb) (fst s) in
  (err, log (EvBlockCb (cb_priv block_cb) type type_data) (h, snd s)).

(** The [list_for_each_entry] of [nft_setup_cb_call]. *)
Fixpoint cb_list_walk (l : list flow_block_cb) (type : tc_setup_type)
    (type_data : flow_cls_offload) (s : dstate) : Z * dstate :=
  match l with
  | [] => (0, s)
  | block_cb :: rest =>
      let '(err, s') := call_cb block_cb type type_data s in
      if err <? 0 then (err, s') else cb_list_walk rest type type_data s'
  end.

Definition nft_setup_cb_call (basechain : nft_base_chain)
    (type : tc_setup_type) (type_data : flow_cls_offload) (s : dstate)
  : Z * dstate :=
  cb_list_walk (cb_list (flow_block_of basechain)) type type_data s.

(** The descriptor [nft_flow_offload_rule] builds. *)
Definition cls_flow_of (trans : nft_trans) (command : flow_cls_command)
  : flow_cls_offload :=
  let flow := trans_flow_rule trans in
  {| common_protocol :=
       match flow with
       | Some f => proto (body f)
       | None => u16_store host_big_endian ETH_P_ALL
       end;
     command := command;
     cookie := trans_rule trans;
     cls_rule := option_map flow_rule_of flow |}.

Definition nft_flow_offload_rule (trans : nft_trans)
    (command : flow_cls_command) (w : net) : Z * net :=
  let chain := chains w (ctx_chain trans) in
  if negb (nft_is_base_chain chain) then (- EOPNOTSUPP, w)
  else
    let basechain := basechain_of chain in
    let '(err, s) :=
      nft_setup_cb_call basechain TC_SETUP_CLSFLOWER
        (cls_flow_of trans command) (drv w) in
    (err, set_drv s w).

(** ** Binding and unbinding a block *)

(** [list_splice(&bo->cb_list, &basechain->flow_block.cb_list)]: the entries of
    the descriptor are inserted at the head of the chain's list. *)
Definition nft_flow_offload_bind (bo : flow_block_offload)
    (basechain : nft_base_chain) : Z * nft_base_chain :=
  (0, set_flow_block
        {| cb_list := bo_cb_list bo ++ cb_list (flow_block_of basechain) |}
        basechain).

(** Every entry of the descriptor's list is unlinked and freed. *)
Fixpoint free_cb_list (l : list flow_block_cb) (s : dstate) : dstate :=
  match l with
  | [] => s
  | block_cb :: rest =>
      free_cb_list rest
        (log (EvBlockCbFree (cb_priv block_cb))
             (flow_block_cb_free block_cb (fst s), snd s))
  end.

Definition nft_flow_offload_unbind (bo : flow_block_offload)
    (basechain : nft_base_chain) (s : dstate) : Z * dstate :=
  (0, free_cb_list (bo_cb_list bo) s).

(** [cmd] has the two values of [enum flow_block_command]; the [default]
    branch of the source is not reachable with a value of that type. *)
Definition nft_block_setup (basechain : nft_base_chain)
    (bo : flow_block_offload) (cmd : flow_block_command) (s : dstate)
  : Z * nft_base_chain * dstate :=
  match cmd with
  | FLOW_BLOCK_BIND =>
      let '(err, basechain') := nft_flow_offload_bind bo basechain in
      (err, basechain', s)
  | FLOW_BLOCK_UNBIND =>
      let '(err, s') := nft_flow_offload_unbind bo basechain s in
      (err, basechain, s')
  end.

(** The descriptor all three binding paths start from. *)
Definition bo_init (chain : nft_base_chain) (cmd : flow_block_command)
  : flow_block_offload :=
  {| bo_command := cmd;
     bo_binder_type := FLOW_BLOCK_BINDER_TYPE_CLSACT_INGRESS;
     bo_block := flow_block_of chain;
     bo_cb_list := [] |}.

Definition nft_block_offload_cmd (chain : nft_base_chain) (dev : net_device)
    (setup_tc : tc_setup_type -> flow_block_offload -> HW ->
                Z * flow_block_offload * HW)
    (cmd : flow_block_command) (s : dstate)
  : Z * nft_base_chain * dstate :=
  let '(err, bo, h) := setup_tc TC_SETUP_BLOCK (bo_init chain cmd) (fst s) in
  let s' := log (EvNdoSetupTc (name dev) cmd) (h, snd s) in
  let chain' := set_flow_block (bo_block bo) chain in
  if err <? 0 then (err, chain', s')
  else nft_block_setup chain' bo cmd s'.

Definition nft_indr_block_ing_cmd (dev : net_device)
    (chain : option nft_base_chain) (indr_cb : flow_indr_block_bind_cb_t)
    (priv : Z) (cmd : flow_block_command) (s : dstate)
  : option nft_base_chain * dstate :=
  match chain with
  | None => (None, s)
  | Some chain =>
      let '(bo, h) :=
        indr_cb dev priv TC_SETUP_BLOCK (bo_init chain cmd) (fst s) in
      let s' := log (EvIndrCb (name dev) priv cmd) (h, snd s) in
      let chain' := set_flow_block (bo_block bo) chain in
      let '(_, chain'', s'') := nft_block_setup chain' bo cmd s' in
      (Some chain'', s'')
  end.

Definition nft_indr_block_offload_cmd (chain : nft_base_chain)
    (dev : net_device) (cmd : flow_block_command) (s : dstate)
  : Z * nft_base_chain * dstate :=
  let '(bo, h) := flow_indr_block_call dev (bo_init chain cmd) cmd (fst s) in
  let s' := log (EvIndrBlockCall (name dev) cmd) (h, snd s) in
  let chain' := set_flow_block (bo_block bo) chain in
  match bo_cb_list bo with
  | [] => (- EOPNOTSUPP, chain', s')
  | _ :: _ => nft_block_setup chain' bo cmd s'
  end.

Definition is_bind (cmd : flow_block_command) : bool :=
  match cmd with
  | FLOW_BLOCK_BIND => true
  | FLOW_BLOCK_UNBIND => false
  end.

Definition nft_flow_offload_chain (trans : nft_trans)
    (cmd : flow_block_command) (w : net) : Z * net :=
  let chain := chains w (ctx_chain trans) in
  if negb (nft_is_base_chain chain) then (- EOPNOTSUPP, w)
  else
    let basechain := basechain_of chain in
    match ops_dev basechain with
    | None => (- EOPNOTSUPP, w)
    | Some dev =>
        if is_bind cmd
           && negb (nft_trans_chain_policy trans =? -1)
           && negb (nft_trans_chain_policy trans =? NF_ACCEPT)
        then (- EOPNOTSUPP, w)
        else
          let '(err, basechain', s) :=
            match ndo_setup_tc dev with
            | Some setup_tc =>
                nft_block_offload_cmd basechain dev setup_tc cmd (drv w)
            | None =>
                nft_indr_block_offload_cmd basechain dev cmd (drv w)
            end in
          (err, set_basechain (ctx_chain trans) basechain' (set_drv s w))
    end.

(** ** The commit walk *)

(** How one pass through the loop body of [nft_flow_rule_offload_commit]
    ends. *)
Inductive body_end :=
| Continue (w : net)             (* the [continue] statements *)
| Break (err : Z) (w : net)      (* the end of the [switch] *)
| Return (err : Z) (w : net)     (* [return -EOPNOTSUPP] inside the switch *)
| Oops.                          (* a NULL pointer is dereferenced *)

Definition chain_offloaded (trans : nft_trans) (w : net) : bool :=
  flag_set (chain_flags (chains w (ctx_chain trans))) NFT_CHAIN_HW_OFFLOAD.

(** The loop body; [err] is the variable of that name on entry. *)
Definition commit_trans (trans : nft_trans) (err : Z) (w : net) : body_end :=
  if negb (ctx_family trans =? NFPROTO_NETDEV) then Continue w
  else if msg_type trans =? NFT_MSG_NEWCHAIN then
    if negb (chain_offloaded trans w) then Continue w
    else
      let '(err, w') := nft_flow_offload_chain trans FLOW_BLOCK_BIND w in
      Break err w'
  else if msg_type trans =? NFT_MSG_DELCHAIN then
    if negb (chain_offloaded trans w) then Continue w
    else
      let '(err, w') := nft_flow_offload_chain trans FLOW_BLOCK_UNBIND w in
      Break err w'
  else if msg_type trans =? NFT_MSG_NEWRULE then
    if negb (chain_offloaded trans w) then Continue w
    else if flag_set (ctx_flags trans) NLM_F_REPLACE
            || negb (flag_set (ctx_flags trans) NLM_F_APPEND)
    then Return (- EOPNOTSUPP) w
    else
      let '(err, w') := nft_flow_offload_rule trans FLOW_CLS_REPLACE w in
      match trans_flow_rule trans with
      | Some flow => Break err (set_mem (nft_flow_rule_destroy flow (mem w')) w')
      | None => Oops          (* [nft_flow_rule_destroy(NULL)] reads [flow->rule] *)
      end
  else if msg_type trans =? NFT_MSG_DELRULE then
    if negb (chain_offloaded trans w) then Continue w
    else
      let '(err, w') := nft_flow_offload_rule trans FLOW_CLS_DESTROY w in
      Break err w'
  else Break err w.

Inductive result :=
| Ret (err : Z) (w : net)
| Fault.

(** The [list_for_each_entry] over the commit list, from a given record on. *)
Fixpoint commit_walk (l : list nft_trans) (err : Z) (w : net) : result :=
  match l with
  | [] => Ret err w
  | trans :: rest =>
      match commit_trans trans err w with
      | Continue w' => commit_walk rest err w'
      | Break err' w' =>
          if err' =? 0 then commit_walk rest err' w' else Ret err' w'
      | Return err' w' => Ret err' w'
      | Oops => Fault
      end
  end.

Definition nft_flow_rule_offload_commit (w : net) : result :=
  commit_walk (commit_list w) 0 w.

(** ** Late join *)

(** The inner loop of [nft_indr_block_get_and_ing_cmd]; [Some w'] when the
    function returned from inside it. *)
Fixpoint indr_chains_walk (cs : list nat) (dev : net_device)
    (indr_cb : flow_indr_block_bind_cb_t) (priv : Z)
    (command : flow_block_command) (w : net) : option net :=
  match cs with
  | [] => None
  | c :: rest =>
      let chain := chains w c in
      if nft_is_base_chain chain
         && (strncmp (dev_name (basechain_of chain)) (name dev) IFNAMSIZ =? 0)
      then
        let '(chain', s) :=
          nft_indr_block_ing_cmd dev (Some (basechain_of chain)) indr_cb priv
            command (drv w) in
        Some (match chain' with
              | Some bc => set_basechain c bc (set_drv s w)
              | None => set_drv s w
              end)
      else indr_chains_walk rest dev indr_cb priv command w
  end.

(** The outer loop over [net->nft.tables]. *)
Fixpoint indr_tables_walk (ts : list nft_table) (dev : net_device)
    (indr_cb : flow_indr_block_bind_cb_t) (priv : Z)
    (command : flow_block_command) (w : net) : net :=
  match ts with
  | [] => w
  | table :: rest =>
      if negb (family table =? NFPROTO_NETDEV)
      then indr_tables_walk rest dev indr_cb priv command w
      else
        match indr_chains_walk (table_chains table) dev indr_cb priv
                command w with
        | Some w' => w'
        | None => indr_tables_walk rest dev indr_cb priv command w
        end
  end.

Definition nft_indr_block_get_and_ing_cmd (dev : net_device)
    (indr_cb : flow_indr_block_bind_cb_t) (priv : Z)
    (command : flow_block_command) (w : net) : net :=
  indr_tables_walk (tables w) dev indr_cb priv command w.

(** ** Vocabulary of the properties *)

Definition has_ops (e : nft_expr) : bool :=
  match ops e with
  | Some _ => true
  | None => false
  end.

(** The expression's type declares the offload capability. *)
Definition offloadable (e : nft_expr) : bool :=
  match ops e with
  | Some o => match offload o with Some _ => true | None => false end
  | None => false
  end.

(** The expression's descriptor carries [NFT_OFFLOAD_F_ACTION]. *)
Definition action_bearing (e : nft_expr) : bool :=
  match ops e with
  | Some o => flag_set (offload_flags o) NFT_OFFLOAD_F_ACTION
  | None => false
  end.

Definition count_action_bearing (rule : nft_rule) : Z :=
  Z.of_nat (length (List.filter action_bearing (exprs rule))).

(** Every offload call made while walking [es] from [ctx] and [flow] returns
    a value that is not negative. *)
Fixpoint offload_calls_succeed (es : list nft_expr) (ctx : nft_offload_ctx)
    (flow : nft_flow_body) : Prop :=
  match es with
  | [] => True
  | expr :: rest =>
      match ops expr with
      | None => True
      | Some o =>
          match offload o with
          | None => True
          | Some f =>
              0 <= fst (fst (f ctx flow (expr_data expr)))
              /\ offload_calls_succeed rest
                   (snd (fst (f ctx flow (expr_data expr))))
                   (snd (f ctx flow (expr_data expr)))
          end
      end
  end.

(** The flow contents the second walk of [nft_flow_rule_create] starts
    from. *)
Definition initial_body (rule : nft_rule) : nft_flow_body :=
  flow_body_init (count_actions (exprs rule) 0 mod 2 ^ 32).

(** The next [n] allocations succeed. *)
Definition allocs_succeed (n : nat) (m : kmem) : bool :=
  forallb negb (firstn n (oom m)).

(** The record is one the walk acts on: device family, chain flagged for
    hardware offload. *)
Definition processed (trans : nft_trans) (w : net) : bool :=
  (ctx_family trans =? NFPROTO_NETDEV) && chain_offloaded trans w.

(** The insertion flags say "replace", or do not say "append". *)
Definition not_pure_append (trans : nft_trans) : bool :=
  flag_set (ctx_flags trans) NLM_F_REPLACE
  || negb (flag_set (ctx_flags trans) NLM_F_APPEND).

(** The state after every callback of [l] was called once, in list order. *)
Fixpoint run_cbs (l : list flow_block_cb) (type : tc_setup_type)
    (data : flow_cls_offload) (s : dstate) : dstate :=
  match l with
  | [] => s
  | block_cb :: rest => run_cbs rest type data (snd (call_cb block_cb type data s))
  end.

(** None of these calls reports a failure. *)
Fixpoint cbs_succeed (l : list flow_block_cb) (type : tc_setup_type)
    (data : flow_cls_offload) (s : dstate) : Prop :=
  match l with
  | [] => True
  | block_cb :: rest =>
      0 <= fst (call_cb block_cb type data s)
      /\ cbs_succeed rest type data (snd (call_cb block_cb type data s))
  end.

(** The two strategies of [nft_flow_offload_chain], selected by the device. *)
Definition block_cmd (basechain : nft_base_chain) (dev : net_device)
    (cmd : flow_block_command) (s : dstate) : Z * nft_base_chain * dstate :=
  match ndo_setup_tc dev with
  | Some setup_tc => nft_block_offload_cmd basechain dev setup_tc cmd s
  | None => nft_indr_block_offload_cmd basechain dev cmd s
  end.

(** The state in which the loop body ends, unless it faults. *)
Definition end_world (b : body_end) : option net :=
  match b with
  | Continue w | Break _ w | Return _ w => Some w
  | Oops => None
  end.

(** The same record with another flow rule attached. *)
Definition set_flow_rule (flow : option nft_flow_rule) (trans : nft_trans)
  : nft_trans :=
  {| msg_type := msg_type trans; ctx_family := ctx_family trans;
     ctx_chain := ctx_chain trans; ctx_flags := ctx_flags trans;
     trans_rule := trans_rule trans; trans_flow_rule := flow;
     trans_chain_policy := trans_chain_policy trans |}.

(** The loop body ends the walk with error [e] in state [w']. *)
Definition fails_with (b : body_end) (e : Z) (w' : net) : Prop :=
  (b = Break e w' /\ e <> 0) \/ b = Return e w'.

(** The block of the chain at address [c]. *)
Definition block_at (c : nat) (w : net) : list flow_block_cb :=
  cb_list (flow_block_of (basechain_of (chains w c))).

(** The events of calling every callback of [l] once, in list order. *)
Definition block_cb_events (l : list flow_block_cb) (type : tc_setup_type)
    (data : flow_cls_offload) : list event :=
  map (fun block_cb => EvBlockCb (cb_priv block_cb) type data) l.

(** The test of the inner loop of [nft_indr_block_get_and_ing_cmd]. *)
Definition late_join_match (dev : net_device) (w : net) (c : nat) : bool :=
  nft_is_base_chain (chains w c)
  && (strncmp (dev_name (basechain_of (chains w c))) (name dev) IFNAMSIZ =? 0).

(** The chains of the device-family tables, in table order and, within a
    table, in chain order. *)
Definition netdev_chains (ts : list nft_table) : list nat :=
  concat (map table_chains
            (List.filter (fun t => family t =? NFPROTO_NETDEV) ts)).

(** The record makes the walk bind or unbind the block of chain [c]. *)
Definition binds_chain (c : nat) (trans : nft_trans) : bool :=
  (ctx_family trans =? NFPROTO_NETDEV)
  && ((msg_type trans =? NFT_MSG_NEWCHAIN)
      || (msg_type trans =? NFT_MSG_DELCHAIN))
  && Nat.eqb (ctx_chain trans) c.

(** The events of freeing every callback of [l], in list order. *)
Definition free_events (l : list flow_block_cb) : list event :=
  map (fun block_cb => EvBlockCbFree (cb_priv block_cb)) l.

(** The offload function of the expression, if it has one, leaves the
    captured layer 3 protocol as it is. *)
Definition keeps_l3num (e : nft_expr) : Prop :=
  forall o f ctx flow,
    ops e = Some o -> offload o = Some f ->
    l3num (dep (snd (fst (f ctx flow (expr_data e))))) = l3num (dep ctx).

(** What a walk over the commit list leaves as it is: the tables, the commit
    list, the allocation oracle, the flags, device and device name of every
    chain; and it allocates nothing. *)
Definition commit_frame (w w' : net) : Prop :=
  tables w' = tables w
  /\ commit_list w' = commit_list w
  /\ oom (mem w') = oom (mem w)
  /\ (live (mem w') ⊆ live (mem w))
  /\ forall c,
       chain_flags (chains w' c) = chain_flags (chains w c)
       /\ ops_dev (basechain_of (chains w' c))
          = ops_dev (basechain_of (chains w c))
       /\ dev_name (basechain_of (chains w' c))
          = dev_name (basechain_of (chains w c)).

End Offload.

(** * Sample rules, devices and chains

    The opaque structures are instantiated with [unit]; the driver state is
    the number of calls the drivers have received. *)

#[local] Instance zeroed_unit : Zeroed unit := tt.

Abbreviation XExpr := (@nft_expr unit unit unit) (only parsing).
Abbreviation XRule := (@nft_rule unit unit unit) (only parsing).
Abbreviation XFlow := (@nft_flow_rule unit unit unit) (only parsing).
Abbreviation XTrans := (@nft_trans unit unit unit) (only parsing).
Abbreviation XCb := (@flow_block_cb unit unit unit nat) (only parsing).
Abbreviation XBo := (@flow_block_offload unit unit unit nat) (only parsing).
Abbreviation XDev := (@net_device unit unit unit nat) (only parsing).
Abbreviation XChain := (@nft_chain unit unit unit nat) (only parsing).
Abbreviation XNet := (@net unit unit unit nat) (only parsing).

(** A payload match that records the layer 3 protocol it compares with. *)
Definition ex_match : XExpr :=
  {| ops := Some {| offload := Some (fun ctx flow data =>
                      (0,
                       snd (nft_offload_update_dependency
                              (nft_offload_set_dependency ctx
                                 NFT_OFFLOAD_DEP_NETWORK)
                              (fun i => nth i data x00) 2),
                       flow));
                    offload_flags := 0 |};
     expr_data := [x08; x00] |}.

(** A verdict: it carries an action. *)
Definition ex_verdict : XExpr :=
  {| ops := Some {| offload := Some (fun ctx flow _ => (0, ctx, flow));
                    offload_flags := NFT_OFFLOAD_F_ACTION |};
     expr_data := [] |}.

(** An expression whose type has no offload function. *)
Definition ex_counter : XExpr :=
  {| ops := Some {| offload := None; offload_flags := 0 |};
     expr_data := [] |}.

(** An expression whose offload function fails with [-EINVAL]. *)
Definition ex_invalid : XExpr :=
  {| ops := Some {| offload := Some (fun ctx flow _ => (-22, ctx, flow));
                    offload_flags := 0 |};
     expr_data := [] |}.

Definition ex_rule : XRule := {| exprs := [ex_match; ex_verdict] |}.
Definition ex_rule_invalid : XRule :=
  {| exprs := [ex_invalid; ex_counter] |}.

Definition ex_mem : kmem := Kmem ∅ [].
Definition ex_mem_oom : kmem := Kmem ∅ [true].

(** A compiled flow rule at addresses 0 and 1, and the memory holding it. *)
Definition ex_flow : XFlow :=
  {| flow_addr := 0; rule_addr := 1; num_entries := 1;
     body := flow_body_init 1 |}.
Definition ex_mem_flow : kmem :=
  Kmem (<[1%nat := KFlowRule 1]> (<[0%nat := KNftFlowRule]> ∅)) [].

(** A driver callback that returns [ret]. *)
Definition ex_cb (ret priv : Z) : XCb :=
  {| cb := fun _ _ _ h => (ret, S h); cb_priv := priv |}.

(** A device whose driver registers one callback on bind. *)
Definition ex_setup_tc (type : tc_setup_type) (bo : XBo) (h : nat)
  : Z * XBo * nat :=
  (0,
   {| bo_command := bo_command bo; bo_binder_type := bo_binder_type bo;
      bo_block := bo_block bo;
      bo_cb_list := bo_cb_list bo ++ [ex_cb 0 31] |},
   S h).

Definition ex_setup_tc_unsupported (type : tc_setup_type) (bo : XBo)
    (h : nat) : Z * XBo * nat :=
  (- EOPNOTSUPP, bo, S h).

Definition ex_eth0 : XDev :=
  {| name := "eth0"; ndo_setup_tc := Some ex_setup_tc |}.
Definition ex_eth1 : XDev :=
  {| name := "eth1"; ndo_setup_tc := None |}.
Definition ex_eth2 : XDev :=
  {| name := "eth2"; ndo_setup_tc := Some ex_setup_tc_unsupported |}.

(** No driver-agnostic callback is registered for the device. *)
Definition ex_indr_none (dev : XDev) (bo : XBo) (cmd : flow_block_command)
    (h : nat) : XBo * nat :=
  (bo, h).

(** One driver-agnostic callback adds itself to the descriptor. *)
Definition ex_indr_one (dev : XDev) (bo : XBo) (cmd : flow_block_command)
    (h : nat) : XBo * nat :=
  ({| bo_command := bo_command bo; bo_binder_type := bo_binder_type bo;
      bo_block := bo_block bo;
      bo_cb_list := bo_cb_list bo ++ [ex_cb 0 41] |},
   S h).

(** The late-joining callback: it adds itself to the descriptor. *)
Definition ex_indr_cb (dev : XDev) (priv : Z) (type : tc_setup_type)
    (bo : XBo) (h : nat) : XBo * nat :=
  ({| bo_command := bo_command bo; bo_binder_type := bo_binder_type bo;
      bo_block := bo_block bo;
      bo_cb_list := bo_cb_list bo ++ [ex_cb 0 priv] |},
   S h).

Definition ex_cb_free (block_cb : XCb) (h : nat) : nat := S h.

Definition ex_chain (flags : Z) (dev : XDev) (l : list XCb) : XChain :=
  {| chain_flags := flags;
     basechain_of := {| ops_dev := Some dev; dev_name := name dev;
                        flow_block_of := {| cb_list := l |} |} |}.

(** The chains of the samples, by address: 1 to 4 and 6 are base chains with
    hardware offload, on [eth0], [eth1], [eth0], [eth2] and [eth0]; 5 is a
    base chain on [eth0] without hardware offload; any other address holds a
    regular chain. *)
Definition ex_offloaded : Z := Z.lor NFT_BASE_CHAIN NFT_CHAIN_HW_OFFLOAD.

Definition ex_chains (p : nat) : XChain :=
  match p with
  | 1%nat => ex_chain ex_offloaded ex_eth0 []
  | 2%nat => ex_chain ex_offloaded ex_eth1 []
  | 3%nat =>
      ex_chain ex_offloaded ex_eth0 [ex_cb 0 11; ex_cb (-5) 12; ex_cb 0 13]
  | 4%nat => ex_chain ex_offloaded ex_eth2 []
  | 5%nat => ex_chain NFT_BASE_CHAIN ex_eth0 []
  | 6%nat => ex_chain ex_offloaded ex_eth0 [ex_cb 0 21]
  | _ => ex_chain 0 ex_eth1 []
  end.

Definition ex_net (l : list XTrans) : XNet :=
  {| mem := ex_mem_flow; drv := (0%nat, []); chains := ex_chains;
     tables := [ {| family := NFPROTO_IPV4; table_chains := [3%nat] |};
                 {| family := NFPROTO_NETDEV;
                    table_chains := [0%nat; 5%nat; 6%nat] |} ];
     commit_list := l |}.

(** A record of the commit list; [policy] is what is assigned to its policy
    member. *)
Definition ex_trans (type family : Z) (chain : nat) (flags : Z)
    (flow : option XFlow) (policy : Z) : XTrans :=
  {| msg_type := type; ctx_family := family; ctx_chain := chain;
     ctx_flags := flags; trans_rule := 100%nat; trans_flow_rule := flow;
     trans_chain_policy := u8_byte policy |}.

(** The records of the sample walks. *)
Definition ex_t_other_family : XTrans :=
  ex_trans NFT_MSG_NEWRULE NFPROTO_IPV4 1%nat 0 (Some ex_flow) 0.
Definition ex_t_delrule : XTrans :=
  ex_trans NFT_MSG_DELRULE NFPROTO_NETDEV 3%nat 0 None 0.
Definition ex_t_insert : XTrans :=
  ex_trans NFT_MSG_NEWRULE NFPROTO_NETDEV 1%nat 0 (Some ex_flow) 0.
Definition ex_t_append : XTrans :=
  ex_trans NFT_MSG_NEWRULE NFPROTO_NETDEV 3%nat NLM_F_APPEND (Some ex_flow) 0.
Definition ex_t_newchain (chain : nat) (policy : Z) : XTrans :=
  ex_trans NFT_MSG_NEWCHAIN NFPROTO_NETDEV chain 0 None policy.

(** An expression slot whose [ops] is NULL. *)
Definition ex_null : XExpr := {| ops := None; expr_data := [] |}.

(** What compiling [ex_rule] in [ex_mem] returns and leaves. *)
Definition ex_flow_compiled : XFlow :=
  match fst (nft_flow_rule_create ex_rule ex_mem) with
  | inl flow => flow
  | inr _ => ex_flow
  end.
Definition ex_mem_compiled : kmem :=
  snd (nft_flow_rule_create ex_rule ex_mem).

(** A driver that binds one callback, with private data 31, and on unbind
    moves its callbacks from the block to the descriptor's list. *)
Definition ex_is_mine (block_cb : XCb) : bool := cb_priv block_cb =? 31.

Definition ex_setup_tc_rt (type : tc_setup_type) (bo : XBo) (h : nat)
  : Z * XBo * nat :=
  match bo_command bo with
  | FLOW_BLOCK_BIND =>
      (0,
       {| bo_command := bo_command bo; bo_binder_type := bo_binder_type bo;
          bo_block := bo_block bo;
          bo_cb_list := bo_cb_list bo ++ [ex_cb 0 31] |},
       S h)
  | FLOW_BLOCK_UNBIND =>
      (0,
       {| bo_command := bo_command bo; bo_binder_type := bo_binder_type bo;
          bo_block :=
            {| cb_list := List.filter (fun c => negb (ex_is_mine c))
                            (cb_list (bo_block bo)) |};
          bo_cb_list := bo_cb_list bo
                        ++ List.filter ex_is_mine (cb_list (bo_block bo)) |},
       S h)
  end.

Definition ex_eth3 : XDev :=
  {| name := "eth3"; ndo_setup_tc := Some ex_setup_tc_rt |}.

(** Chain 7 is an offloaded base chain on [eth3] whose block already holds
    the callback 61; chain 8 is the same with the driver's callback bound. *)
Definition ex_chains_rt (p : nat) : XChain :=
  match p with
  | 7%nat => ex_chain ex_offloaded ex_eth3 [ex_cb 0 61]
  | 8%nat => ex_chain ex_offloaded ex_eth3 [ex_cb 0 31; ex_cb 0 61]
  | _ => ex_chains p
  end.

Definition ex_net_rt (l : list XTrans) : XNet :=
  {| mem := ex_mem_flow; drv := (0%nat, []); chains := ex_chains_rt;
     tables := [ {| family := NFPROTO_NETDEV;
                    table_chains := [7%nat; 8%nat] |} ];
     commit_list := l |}.

(** More records: an appended rule on chain 6, whose only callback accepts
    it, with and without its flow rule; a rule on a regular chain; the
    deletion of a chain. *)
Definition ex_t_append_ok : XTrans :=
  ex_trans NFT_MSG_NEWRULE NFPROTO_NETDEV 6%nat NLM_F_APPEND (Some ex_flow) 0.
Definition ex_t_append_null : XTrans :=
  ex_trans NFT_MSG_NEWRULE NFPROTO_NETDEV 6%nat NLM_F_APPEND None 0.
Definition ex_t_regular : XTrans :=
  ex_trans NFT_MSG_NEWRULE NFPROTO_NETDEV 0%nat 0 (Some ex_flow) 0.
Definition ex_t_delchain (chain : nat) (policy : Z) : XTrans :=
  ex_trans NFT_MSG_DELCHAIN NFPROTO_NETDEV chain 0 None policy.

(** The state a commit of the samples ends in. *)
Definition ex_after (w : XNet) : XNet :=
  match nft_flow_rule_offload_commit false ex_indr_none ex_cb_free w with
  | Ret _ w' => w'
  | Fault => w
  end.

(** A commit that succeeds: a record of another family, the bind of chain 1,
    and a rule appended to chain 6. *)
Definition ex_net_ok : XNet :=
  ex_net [ex_t_other_family; ex_t_newchain 1 NF_ACCEPT; ex_t_append_ok].

(** * Properties *)

Section Properties.

Context {flow_dissector nft_flow_key flow_action_entry HW : Type}.
Context `{!Zeroed flow_dissector, !Zeroed nft_flow_key,
          !Zeroed flow_action_entry}.

Context (host_big_endian : bool).
Context (flow_indr_block_call :
           @net_device flow_dissector nft_flow_key flow_action_entry HW ->
           @flow_block_offload flow_dissector nft_flow_key flow_action_entry HW ->
           flow_block_command -> HW ->
           @flow_block_offload flow_dissector nft_flow_key flow_action_entry HW
           * HW).
Context (flow_block_cb_free :
           @flow_block_cb flow_dissector nft_flow_key flow_action_entry HW ->
           HW -> HW).

Local Abbreviation Net :=
  (@net flow_dissector nft_flow_key flow_action_entry HW).
Local Abbreviation Trans :=
  (@nft_trans flow_dissector nft_flow_key flow_action_entry).
Local Abbreviation BlockCb :=
  (@flow_block_cb flow_dissector nft_flow_key flow_action_entry HW).
Local Abbreviation DState :=
  (@dstate flow_dissector nft_flow_key flow_action_entry HW).
Local Abbreviation commit_trans :=
  (commit_trans host_big_endian flow_indr_block_call flow_block_cb_free).
Local Abbreviation commit_walk :=
  (commit_walk host_big_endian flow_indr_block_call flow_block_cb_free).
Local Abbreviation nft_flow_rule_offload_commit :=
  (nft_flow_rule_offload_commit host_big_endian flow_indr_block_call
     flow_block_cb_free).
Local Abbreviation nft_flow_offload_chain :=
  (nft_flow_offload_chain flow_indr_block_call flow_block_cb_free).
Local Abbreviation nft_flow_offload_rule :=
  (nft_flow_offload_rule host_big_endian).
Local Abbreviation cls_flow_of := (cls_flow_of host_big_endian).
Local Abbreviation block_cmd :=
  (block_cmd flow_indr_block_call flow_block_cb_free).
Local Abbreviation nft_indr_block_offload_cmd :=
  (nft_indr_block_offload_cmd flow_indr_block_call flow_block_cb_free).
Local Abbreviation nft_block_offload_cmd :=
  (nft_block_offload_cmd flow_block_cb_free).
Local Abbreviation nft_block_setup := (nft_block_setup flow_block_cb_free).
Local Abbreviation Expr :=
  (@nft_expr flow_dissector nft_flow_key flow_action_entry).
Local Abbreviation Rule :=
  (@nft_rule flow_dissector nft_flow_key flow_action_entry).
Local Abbreviation Body :=
  (@nft_flow_body flow_dissector nft_flow_key flow_action_entry).
Local Abbreviation FlowRule :=
  (@nft_flow_rule flow_dissector nft_flow_key flow_action_entry).

(** ** Dependency tracking *)

(** C6: [nft_offload_update_dependency] stores the first two bytes of the data
    in [l3num] when a network dependency is pending, the first byte in
    [protonum] when a transport dependency is pending, and nothing otherwise;
    the warning fires exactly when [len] is not that width; the pending kind
    is [NFT_OFFLOAD_DEP_UNSPEC] afterwards in every case, so that a second call
    right after changes nothing and raises no warning, whereas a call after
    [nft_offload_set_dependency] captures again. *)
Theorem nft_offload_update_dependency_single_shot
    (ctx : nft_offload_ctx) (data data' : nat -> byte) (len len' : Z) :
  let r := nft_offload_update_dependency ctx data len in
  let r' := nft_offload_update_dependency (snd r) data' len' in
  dep_type (dep (snd r)) = NFT_OFFLOAD_DEP_UNSPEC
  /\ num_actions (snd r) = num_actions ctx
  /\ regs (snd r) = regs ctx
  /\ match dep_type (dep ctx) with
     | NFT_OFFLOAD_DEP_NETWORK =>
         l3num (dep (snd r)) = (data 0%nat, data 1%nat)
         /\ protonum (dep (snd r)) = protonum (dep ctx)
         /\ fst r = negb (len =? 2)
     | NFT_OFFLOAD_DEP_TRANSPORT =>
         protonum (dep (snd r)) = data 0%nat
         /\ l3num (dep (snd r)) = l3num (dep ctx)
         /\ fst r = negb (len =? 1)
     | NFT_OFFLOAD_DEP_UNSPEC =>
         l3num (dep (snd r)) = l3num (dep ctx)
         /\ protonum (dep (snd r)) = protonum (dep ctx)
         /\ fst r = false
     end
  /\ r' = (false, snd r)
  /\ l3num (dep (snd (nft_offload_update_dependency
                        (nft_offload_set_dependency (snd r)
                           NFT_OFFLOAD_DEP_NETWORK) data' len')))
     = (data' 0%nat, data' 1%nat).
Proof.
  destruct ctx as [[ty l3 l4] na rg].
  destruct ty; cbn; repeat split; reflexivity.
Qed.

(** ** The allocator *)

Lemma kzalloc_cases (k : kobj) (m : kmem) :
  (exists later, oom m = true :: later
                 /\ kzalloc k m = (None, Kmem (live m) later))
  \/ (exists a, (a ∉ dom (live m))
                /\ allocs_succeed 1 m = true
                /\ kzalloc k m
                   = (Some a, Kmem (<[a := k]> (live m)) (tail (oom m)))).
Proof.
  unfold kzalloc, allocs_succeed. destruct (oom m) as [|[] later] eqn:E.
  - right. exists (fresh (dom (live m))). split; [apply is_fresh | done].
  - left. by exists later.
  - right. exists (fresh (dom (live m))). split; [apply is_fresh | done].
Qed.

Lemma allocs_succeed_S (n : nat) (m : kmem) :
  allocs_succeed (S n) m = true ->
  allocs_succeed 1 m = true
  /\ forall l, allocs_succeed n (Kmem l (tail (oom m))) = true.
Proof.
  unfold allocs_succeed. destruct (oom m) as [|b later]; cbn.
  - intros _. split; [done|]. intros _. by destruct n.
  - intros [-> Hl]%andb_prop. done.
Qed.

Lemma kzalloc_succeeds (k : kobj) (m : kmem) :
  allocs_succeed 1 m = true ->
  let a := fresh (dom (live m)) in
  kzalloc k m = (Some a, Kmem (<[a := k]> (live m)) (tail (oom m))).
Proof.
  unfold kzalloc, allocs_succeed. by destruct (oom m) as [|[] later].
Qed.

Lemma kfree_kzalloc (a : nat) (k : kobj) (l : gmap nat kobj) (o : list bool) :
  a ∉ dom l -> live (kfree a (Kmem (<[a := k]> l) o)) = l.
Proof.
  intros Ha. cbn. apply delete_insert_id. by apply not_elem_of_dom.
Qed.

(** [nft_flow_rule_alloc] either fails and leaves the live objects as they
    were, or returns a flow rule at two fresh, distinct addresses. *)
Lemma nft_flow_rule_alloc_cases (n : Z) (m : kmem) :
  (exists m', nft_flow_rule_alloc n m = (None : option FlowRule, m')
              /\ live m' = live m)
  \/ (exists f r o,
        (f ∉ dom (live m)) /\ (r ∉ dom (live m)) /\ f <> r
        /\ nft_flow_rule_alloc n m
           = (Some {| flow_addr := f; rule_addr := r;
                      num_entries := n mod 2 ^ 32;
                      body := flow_body_init (n mod 2 ^ 32) : Body |},
              Kmem (<[r := KFlowRule (n mod 2 ^ 32)]>
                      (<[f := KNftFlowRule]> (live m))) o)).
Proof.
  unfold nft_flow_rule_alloc, flow_rule_alloc.
  destruct (kzalloc_cases KNftFlowRule m)
    as [(later & _ & ->) | (f & Hf & _ & ->)].
  { left. eexists. split; [reflexivity | done]. }
  set (m1 := Kmem _ _).
  destruct (kzalloc_cases (KFlowRule (n mod 2 ^ 32)) m1)
    as [(later & _ & ->) | (r & Hr & _ & ->)].
  { left. eexists. split; [reflexivity |]. by apply kfree_kzalloc. }
  right. exists f, r, (tail (oom m1)).
  subst m1. cbn in Hr. rewrite dom_insert_L in Hr.
  repeat split; [done | set_solver | set_solver].
Qed.

Lemma nft_flow_rule_alloc_succeeds (n : Z) (m : kmem) :
  allocs_succeed 2 m = true ->
  exists f r o,
    (f ∉ dom (live m)) /\ (r ∉ dom (live m)) /\ f <> r
    /\ nft_flow_rule_alloc n m
       = (Some {| flow_addr := f; rule_addr := r;
                  num_entries := n mod 2 ^ 32;
                  body := flow_body_init (n mod 2 ^ 32) : Body |},
          Kmem (<[r := KFlowRule (n mod 2 ^ 32)]>
                  (<[f := KNftFlowRule]> (live m))) o).
Proof.
  intros [H1 H2]%allocs_succeed_S.
  unfold nft_flow_rule_alloc, flow_rule_alloc.
  rewrite (kzalloc_succeeds _ _ H1). cbn zeta.
  set (f := fresh (dom (live m))).
  rewrite kzalloc_succeeds by apply H2. cbn [live oom].
  set (r := fresh _).
  assert (Hf : f ∉ dom (live m)) by apply is_fresh.
  assert (Hr : r ∉ dom (<[f := KNftFlowRule]> (live m))) by apply is_fresh.
  rewrite dom_insert_L in Hr.
  exists f, r, (tail (tail (oom m))).
  repeat split; [done | set_solver | set_solver].
Qed.

Lemma nft_flow_rule_destroy_alloc (f r : nat) (n : Z) (b : Body) (k : kobj)
    (l : gmap nat kobj) (o : list bool) :
  f ∉ dom l -> r ∉ dom l -> f <> r ->
  live (nft_flow_rule_destroy
          {| flow_addr := f; rule_addr := r; num_entries := n; body := b |}
          (Kmem (<[r := k]> (<[f := KNftFlowRule]> l)) o)) = l.
Proof.
  intros Hf Hr Hne. unfold nft_flow_rule_destroy. cbn.
  rewrite delete_insert_id.
  - apply delete_insert_id. by apply not_elem_of_dom.
  - rewrite lookup_insert_ne by done. by apply not_elem_of_dom.
Qed.

(** ** The compiler *)

Lemma int_wrap_small (z : Z) : - 2 ^ 31 <= z < 2 ^ 31 -> int_wrap z = z.
Proof. intros Hz. unfold int_wrap. rewrite Z.mod_small; lia. Qed.

(** The first walk counts the action-bearing expressions. *)
Lemma count_actions_filter (es : list Expr) (n : Z) :
  forallb has_ops es = true ->
  0 <= n -> n + Z.of_nat (length es) < 2 ^ 31 ->
  count_actions es n
  = n + Z.of_nat (length (List.filter action_bearing es)).
Proof.
  revert n. induction es as [|e es IH]; intros n Hops Hn Hlen.
  - cbn. lia.
  - cbn in Hops. apply andb_prop in Hops as [He Hes].
    cbn [count_actions List.filter]. unfold has_ops, action_bearing in *.
    cbn [length] in Hlen.
    destruct (ops e) as [o|]; [|discriminate].
    destruct (flag_set (offload_flags o) NFT_OFFLOAD_F_ACTION).
    + rewrite int_wrap_small by lia. rewrite IH by (try done; lia).
      cbn [length]. lia.
    + rewrite IH by (try done; lia). lia.
Qed.

Lemma offloadable_has_ops (es : list Expr) :
  forallb offloadable es = true -> forallb has_ops es = true.
Proof.
  induction es as [|e es IH]; [done|]. cbn.
  intros [He Hes]%andb_prop. rewrite IH by done.
  unfold offloadable, has_ops in *. by destruct (ops e).
Qed.

Lemma count_action_bearing_bounds (rule : Rule) :
  0 <= count_action_bearing rule <= Z.of_nat (length (exprs rule)).
Proof.
  unfold count_action_bearing. split; [lia|].
  apply inj_le, List.filter_length_le.
Qed.

(** With offloadable expressions whose calls succeed, the second walk
    reaches the end of the rule. *)
Lemma offload_exprs_succeed (es : list Expr) (ctx : nft_offload_ctx)
    (b : Body) :
  forallb offloadable es = true ->
  offload_calls_succeed es ctx b ->
  exists ctx' b', offload_exprs es ctx b = inl (ctx', b').
Proof.
  revert ctx b. induction es as [|e es IH]; intros ctx b Hoff Hcalls.
  - by exists ctx, b.
  - cbn in Hoff. apply andb_prop in Hoff as [He Hes].
    unfold offloadable in He. cbn [offload_exprs offload_calls_succeed] in *.
    destruct (ops e) as [o|]; [|discriminate].
    destruct (offload o) as [f|]; [|discriminate].
    destruct Hcalls as [Herr Hrest].
    destruct (f ctx b (expr_data e)) as [[err ctx'] b']. cbn in *.
    destruct (Z.ltb_spec err 0); [lia|]. by apply IH.
Qed.




(** C1: for a rule whose expressions all declare the offload capability and
    whose offload calls all succeed, and provided the two allocations of the
    flow rule succeed, [nft_flow_rule_create] returns a flow rule; its
    [num_entries], and the room of the [struct flow_rule] allocated for it,
    is the number of expressions of the rule carrying
    [NFT_OFFLOAD_F_ACTION].  (The first hypothesis is the range of the [int]
    counter; a rule holds at most 4095 bytes of expressions.) *)
Theorem nft_flow_rule_create_offloadable (rule : Rule) (m : kmem) :
  Z.of_nat (length (exprs rule)) < 2 ^ 31 ->
  forallb offloadable (exprs rule) = true ->
  offload_calls_succeed (exprs rule) ctx_init (initial_body rule) ->
  allocs_succeed 2 m = true ->
  exists flow m',
    nft_flow_rule_create rule m = (inl flow, m')
    /\ num_entries flow = count_action_bearing rule
    /\ live m' !! rule_addr flow = Some (KFlowRule (count_action_bearing rule))
    /\ live m' !! flow_addr flow = Some KNftFlowRule
    /\ live m'
       = <[rule_addr flow := KFlowRule (count_action_bearing rule)]>
           (<[flow_addr flow := KNftFlowRule]> (live m))
    /\ (flow_addr flow ∉ dom (live m))
    /\ (rule_addr flow ∉ dom (live m)).
Proof.
  intros Hlen Hoff Hcalls Hroom.
  pose proof (count_action_bearing_bounds rule) as Hb.
  assert (Hn : count_actions (exprs rule) 0 = count_action_bearing rule).
  { rewrite count_actions_filter; [done | by apply offloadable_has_ops | lia..]. }
  unfold nft_flow_rule_create, initial_body in *. cbv zeta.
  rewrite Hn in *.
  destruct (nft_flow_rule_alloc_succeeds (count_action_bearing rule) m Hroom)
    as (f & r & o & Hf & Hr & Hne & ->).
  rewrite Z.mod_small in * by lia. cbn [body].
  destruct (offload_exprs_succeed _ _ _ Hoff Hcalls) as (ctx' & b' & ->).
  eexists _, _. split; [reflexivity|]. cbn.
  rewrite lookup_insert_eq, lookup_insert_ne, lookup_insert_eq by done.
  done.
Qed.


(** ** Dispatch of a per-rule command *)

Lemma call_cb_trace (c : BlockCb) (type : tc_setup_type)
    (data : flow_cls_offload) (s : DState) :
  snd (snd (call_cb c type data s))
  = snd s ++ [EvBlockCb (cb_priv c) type data].
Proof.
  unfold call_cb. by destruct (cb c type data (cb_priv c) (fst s)).
Qed.

(** Calling the callbacks of [l] logs one event for each, in list order. *)
Lemma run_cbs_trace (l : list BlockCb) (type : tc_setup_type)
    (data : flow_cls_offload) (s : DState) :
  snd (run_cbs l type data s) = snd s ++ block_cb_events l type data.
Proof.
  revert s. induction l as [|c l IH]; intros s; cbn.
  - by rewrite app_nil_r.
  - rewrite IH, call_cb_trace, <- app_assoc. done.
Qed.

(** While no callback fails the walk calls them all. *)
Lemma cb_list_walk_all (l : list BlockCb) (type : tc_setup_type)
    (data : flow_cls_offload) (s : DState) :
  cbs_succeed l type data s ->
  cb_list_walk l type data s = (0, run_cbs l type data s).
Proof.
  revert s. induction l as [|c l IH]; intros s Hok; cbn in *; [done|].
  destruct Hok as [Hc Hl]. destruct (call_cb c type data s) as [err s'].
  cbn in *. destruct (Z.ltb_spec err 0); [lia | by apply IH].
Qed.

(** The first callback that fails ends the walk: its error is the result and
    nothing behind it in the list is called. *)
Lemma cb_list_walk_first_failure (pre post : list BlockCb) (c : BlockCb)
    (type : tc_setup_type) (data : flow_cls_offload) (s : DState) :
  cbs_succeed pre type data s ->
  fst (call_cb c type data (run_cbs pre type data s)) < 0 ->
  cb_list_walk (pre ++ c :: post) type data s
  = call_cb c type data (run_cbs pre type data s).
Proof.
  revert s. induction pre as [|p pre IH]; intros s Hok Hc; cbn in *.
  - destruct (call_cb c type data s) as [err s']. cbn in *.
    destruct (Z.ltb_spec err 0); [done | lia].
  - destruct Hok as [Hp Hpre]. destruct (call_cb p type data s) as [err s'].
    cbn in *. destruct (Z.ltb_spec err 0); [lia | by apply IH].
Qed.

(** The walk never returns a positive value. *)
Lemma cb_list_walk_nonpos (l : list BlockCb) (type : tc_setup_type)
    (data : flow_cls_offload) (s : DState) :
  fst (cb_list_walk l type data s) <= 0.
Proof.
  revert s. induction l as [|c l IH]; intros s; cbn; [done|].
  destruct (call_cb c type data s) as [err s'].
  destruct (Z.ltb_spec err 0); [cbn; lia | apply IH].
Qed.

(** C8: a per-rule command on a base chain is handed to the callbacks of the
    chain's block in list order.  If none fails, all are called, each once,
    and the result is 0.  If one fails after the ones before it succeeded, the
    result is its error, and the calls made are those up to and including
    it: no callback behind it in the list is called. *)
Theorem nft_flow_offload_rule_dispatch (trans : Trans)
    (command : flow_cls_command) (w : Net) :
  nft_is_base_chain (chains w (ctx_chain trans)) = true ->
  let l := block_at (ctx_chain trans) w in
  let data := cls_flow_of trans command in
  (cbs_succeed l TC_SETUP_CLSFLOWER data (drv w) ->
   nft_flow_offload_rule trans command w
   = (0, set_drv (run_cbs l TC_SETUP_CLSFLOWER data (drv w)) w)
   /\ snd (run_cbs l TC_SETUP_CLSFLOWER data (drv w))
      = snd (drv w) ++ block_cb_events l TC_SETUP_CLSFLOWER data)
  /\ (forall pre c post,
        l = pre ++ c :: post ->
        cbs_succeed pre TC_SETUP_CLSFLOWER data (drv w) ->
        let r := call_cb c TC_SETUP_CLSFLOWER data
                   (run_cbs pre TC_SETUP_CLSFLOWER data (drv w)) in
        fst r < 0 ->
        nft_flow_offload_rule trans command w = (fst r, set_drv (snd r) w)
        /\ snd (snd r)
           = snd (drv w)
             ++ block_cb_events (pre ++ [c]) TC_SETUP_CLSFLOWER data).
Proof.
  intros Hbase l data. unfold nft_flow_offload_rule.
  rewrite Hbase. cbn [negb]. unfold nft_setup_cb_call.
  fold (block_at (ctx_chain trans) w). fold l. fold data. split.
  - intros Hok. rewrite (cb_list_walk_all _ _ _ _ Hok).
    split; [done | apply run_cbs_trace].
  - intros pre c post Hl Hok Hr. rewrite Hl.
    rewrite (cb_list_walk_first_failure _ _ _ _ _ _ Hok Hr).
    rewrite call_cb_trace, run_cbs_trace.
    destruct (call_cb c TC_SETUP_CLSFLOWER data _) as [e s'].
    split; [done|]. unfold block_cb_events.
    by rewrite map_app, <- app_assoc.
Qed.

(** ** Binding a chain *)

Lemma block_at_set_basechain (c : nat) (bc : nft_base_chain) (w : Net) :
  block_at c (set_basechain c bc w) = cb_list (flow_block_of bc).
Proof. unfold block_at, set_basechain. cbn. by rewrite Nat.eqb_refl. Qed.

(** What is read from the policy member is the value of a byte, and so never
    the [-1] it is compared with. *)
Lemma nft_trans_chain_policy_range (trans : Trans) :
  0 <= nft_trans_chain_policy trans < 2 ^ 8.
Proof.
  unfold nft_trans_chain_policy.
  pose proof (Byte.to_N_bounded (trans_chain_policy trans)). lia.
Qed.

(** Once the guards are passed the result is that of the block command. *)
Lemma nft_flow_offload_chain_proceeds (trans : Trans)
    (cmd : flow_block_command) (w : Net) (dev : net_device) :
  nft_is_base_chain (chains w (ctx_chain trans)) = true ->
  ops_dev (basechain_of (chains w (ctx_chain trans))) = Some dev ->
  is_bind cmd = false \/ nft_trans_chain_policy trans = NF_ACCEPT ->
  let r := block_cmd (basechain_of (chains w (ctx_chain trans))) dev cmd
             (drv w) in
  nft_flow_offload_chain trans cmd w
  = (fst (fst r),
     set_basechain (ctx_chain trans) (snd (fst r)) (set_drv (snd r) w)).
Proof.
  intros Hbase Hdev Hpol. unfold nft_flow_offload_chain, block_cmd.
  rewrite Hbase, Hdev. cbn [negb].
  assert (is_bind cmd && negb (nft_trans_chain_policy trans =? -1)
          && negb (nft_trans_chain_policy trans =? NF_ACCEPT) = false) as ->.
  { destruct Hpol as [-> | ->]; [done|]. by rewrite Z.eqb_refl, andb_false_r. }
  cbv zeta. by destruct (match ndo_setup_tc dev with Some _ => _ | None => _ end)
    as [[err bc] s].
Qed.

(** A bind with a policy other than accept changes nothing: the comparison
    with [-1] holds for no value of the member. *)
Lemma nft_flow_offload_chain_policy_guard (trans : Trans) (w : Net) :
  nft_trans_chain_policy trans <> NF_ACCEPT ->
  nft_flow_offload_chain trans FLOW_BLOCK_BIND w = (- EOPNOTSUPP, w).
Proof.
  intros Hpol. unfold nft_flow_offload_chain.
  destruct (nft_is_base_chain _); [|done]. cbn [negb].
  destruct (ops_dev _) as [dev|]; [|done].
  pose proof (nft_trans_chain_policy_range trans).
  destruct (Z.eqb_spec (nft_trans_chain_policy trans) (-1)); [lia|].
  destruct (Z.eqb_spec (nft_trans_chain_policy trans) NF_ACCEPT); done.
Qed.

(** C9: binding a base chain whose device has no [ndo_setup_tc] goes through
    [flow_indr_block_call], and through nothing else.  If the descriptor's
    callback list is empty afterwards the bind returns [-EOPNOTSUPP] and
    nothing is spliced into the chain's block; otherwise the bind returns 0
    and the descriptor's list is spliced in front of the block's list. *)
Theorem nft_flow_offload_chain_indirect (trans : Trans) (w : Net)
    (dev : net_device) :
  nft_is_base_chain (chains w (ctx_chain trans)) = true ->
  ops_dev (basechain_of (chains w (ctx_chain trans))) = Some dev ->
  ndo_setup_tc dev = None ->
  nft_trans_chain_policy trans = NF_ACCEPT ->
  let r := flow_indr_block_call dev
             (bo_init (basechain_of (chains w (ctx_chain trans)))
                FLOW_BLOCK_BIND)
             FLOW_BLOCK_BIND (fst (drv w)) in
  let res := nft_flow_offload_chain trans FLOW_BLOCK_BIND w in
  drv (snd res)
  = (snd r, snd (drv w) ++ [EvIndrBlockCall (name dev) FLOW_BLOCK_BIND])
  /\ (bo_cb_list (fst r) = [] ->
      fst res = - EOPNOTSUPP
      /\ block_at (ctx_chain trans) (snd res) = cb_list (bo_block (fst r)))
  /\ (bo_cb_list (fst r) <> [] ->
      fst res = 0
      /\ block_at (ctx_chain trans) (snd res)
         = bo_cb_list (fst r) ++ cb_list (bo_block (fst r))).
Proof.
  intros Hbase Hdev Hndo Hpol r res. subst res.
  rewrite (nft_flow_offload_chain_proceeds trans FLOW_BLOCK_BIND w dev
             Hbase Hdev (or_intror Hpol)).
  cbv zeta. unfold block_cmd. rewrite Hndo.
  unfold nft_indr_block_offload_cmd. fold r.
  destruct r as [bo h]. cbn [fst snd].
  destruct (bo_cb_list bo) as [|b l] eqn:El; cbn [fst snd];
    rewrite block_at_set_basechain; cbn.
  - repeat split; try done.
  - rewrite El. repeat split; try done.
Qed.

(** ** The commit walk *)

(** What the calls into driver code leave untouched, and how the log grows. *)

Lemma cb_list_walk_log (l : list BlockCb) (type : tc_setup_type)
    (data : flow_cls_offload) (s : DState) :
  snd s `prefix_of` snd (snd (cb_list_walk l type data s)).
Proof.
  revert s. induction l as [|c l IH]; intros s; cbn; [done|].
  pose proof (call_cb_trace c type data s) as Hc.
  destruct (call_cb c type data s) as [err s']. cbn in Hc.
  assert (snd s `prefix_of` snd s') by (rewrite Hc; by apply prefix_app_r).
  destruct (err <? 0); [done|]. by etrans; [|apply IH].
Qed.

Lemma free_cb_list_log (l : list BlockCb) (s : DState) :
  snd s `prefix_of` snd (free_cb_list flow_block_cb_free l s).
Proof.
  revert s. induction l as [|c l IH]; intros s; cbn; [done|].
  etrans; [|apply IH]. cbn. by apply prefix_app_r.
Qed.

Lemma nft_block_setup_log (bc : nft_base_chain) (bo : flow_block_offload)
    (cmd : flow_block_command) (s : DState) :
  snd s `prefix_of` snd (snd (nft_block_setup bc bo cmd s)).
Proof. destruct cmd; cbn; [done | apply free_cb_list_log]. Qed.

Lemma block_cmd_log (bc : nft_base_chain) (dev : net_device)
    (cmd : flow_block_command) (s : DState) :
  snd s `prefix_of` snd (snd (block_cmd bc dev cmd s)).
Proof.
  unfold block_cmd, nft_block_offload_cmd, nft_indr_block_offload_cmd.
  destruct (ndo_setup_tc dev) as [f|].
  - destruct (f _ _ _) as [[err bo] h]. cbn zeta.
    destruct (err <? 0); cbn; [by apply prefix_app_r|].
    etrans; [|apply nft_block_setup_log]. cbn. by apply prefix_app_r.
  - destruct (flow_indr_block_call _ _ _ _) as [bo h]. cbn zeta.
    destruct (bo_cb_list bo); cbn; [by apply prefix_app_r|].
    etrans; [|apply nft_block_setup_log]. cbn. by apply prefix_app_r.
Qed.

Lemma nft_flow_offload_rule_frame (trans : Trans)
    (command : flow_cls_command) (w : Net) :
  let w' := snd (nft_flow_offload_rule trans command w) in
  mem w' = mem w /\ chains w' = chains w
  /\ snd (drv w) `prefix_of` snd (drv w').
Proof.
  unfold nft_flow_offload_rule.
  destruct (nft_is_base_chain _); cbn [negb]; [|done].
  unfold nft_setup_cb_call.
  pose proof (cb_list_walk_log
                (cb_list (flow_block_of
                            (basechain_of (chains w (ctx_chain trans)))))
                TC_SETUP_CLSFLOWER (cls_flow_of trans command) (drv w)) as Hl.
  destruct (cb_list_walk _ _ _ _) as [err s]. done.
Qed.

Lemma nft_flow_offload_chain_frame (trans : Trans)
    (cmd : flow_block_command) (w : Net) :
  let w' := snd (nft_flow_offload_chain trans cmd w) in
  mem w' = mem w /\ snd (drv w) `prefix_of` snd (drv w').
Proof.
  unfold nft_flow_offload_chain.
  destruct (nft_is_base_chain _); cbn [negb]; [|done].
  destruct (ops_dev _) as [dev|]; [|done].
  destruct (_ && _); [done|].
  pose proof (block_cmd_log (basechain_of (chains w (ctx_chain trans))) dev
                cmd (drv w)) as Hl.
  unfold block_cmd in Hl.
  destruct (match ndo_setup_tc dev with Some _ => _ | None => _ end)
    as [[err bc] s]. done.
Qed.

(** The case analysis of the loop body. *)
Ltac commit_cases t w :=
  unfold commit_trans, processed, not_pure_append;
  destruct (ctx_family t =? NFPROTO_NETDEV) eqn:?; cbn [negb andb];
  [ destruct (msg_type t =? NFT_MSG_NEWCHAIN) eqn:?;
    [ | destruct (msg_type t =? NFT_MSG_DELCHAIN) eqn:?;
        [ | destruct (msg_type t =? NFT_MSG_NEWRULE) eqn:?;
            [ | destruct (msg_type t =? NFT_MSG_DELRULE) eqn:? ] ] ];
    destruct (chain_offloaded t w) eqn:?; cbn [negb andb]
  | ].

(** A record the walk does not act on leaves everything as it is. *)
Lemma commit_trans_skip (t : Trans) (w : Net) :
  processed t w = false ->
  commit_trans t 0 w = Continue w \/ commit_trans t 0 w = Break 0 w.
Proof. commit_cases t w; intros; try done; auto. Qed.

(** The only [return] inside the switch. *)
Lemma commit_trans_return (t : Trans) (err e : Z) (w w' : Net) :
  commit_trans t err w = Return e w' -> e = - EOPNOTSUPP /\ w' = w.
Proof.
  commit_cases t w; try done;
    try (by destruct (nft_flow_offload_chain _ _ _));
    try (by destruct (nft_flow_offload_rule _ _ _)).
  destruct (_ || _); [by intros [= <- <-]|].
  destruct (nft_flow_offload_rule _ _ _). by destruct (trans_flow_rule t).
Qed.

Lemma fails_with_nonzero (t : Trans) (w w' : Net) (e : Z) :
  fails_with (commit_trans t 0 w) e w' -> e <> 0.
Proof.
  intros [[_ He] | Hr]; [done|].
  apply commit_trans_return in Hr as [-> _]. done.
Qed.

Lemma commit_trans_log (t : Trans) (err : Z) (w w' : Net) :
  end_world (commit_trans t err w) = Some w' ->
  snd (drv w) `prefix_of` snd (drv w').
Proof.
  commit_cases t w; try (by intros [= <-]).
  - pose proof (nft_flow_offload_chain_frame t FLOW_BLOCK_BIND w) as [_ H].
    destruct (nft_flow_offload_chain _ _ _). by intros [= <-].
  - pose proof (nft_flow_offload_chain_frame t FLOW_BLOCK_UNBIND w) as [_ H].
    destruct (nft_flow_offload_chain _ _ _). by intros [= <-].
  - destruct (_ || _); [by intros [= <-]|].
    pose proof (nft_flow_offload_rule_frame t FLOW_CLS_REPLACE w)
      as (_ & _ & H).
    destruct (nft_flow_offload_rule _ _ _).
    destruct (trans_flow_rule t); [|done]. by intros [= <-].
  - pose proof (nft_flow_offload_rule_frame t FLOW_CLS_DESTROY w)
      as (_ & _ & H).
    destruct (nft_flow_offload_rule _ _ _). by intros [= <-].
Qed.

(** The records are taken in list order: a walk over a prefix that came to
    its end is continued by the walk over what follows. *)
Lemma commit_walk_app (pre rest : list Trans) (w w1 : Net) :
  commit_walk pre 0 w = Ret 0 w1 ->
  commit_walk (pre ++ rest) 0 w = commit_walk rest 0 w1.
Proof.
  revert w. induction pre as [|t pre IH]; intros w; cbn.
  - by intros [= ->].
  - destruct (commit_trans t 0 w) as [w'|e w'|e w'|] eqn:Et; [by apply IH | | | done].
    + destruct (Z.eqb_spec e 0) as [->|]; [by apply IH | by intros [= ? ?]].
    + apply commit_trans_return in Et as [-> _]. by intros [= ? ?].
Qed.

Lemma commit_walk_log (l : list Trans) (w w' : Net) (e : Z) :
  commit_walk l 0 w = Ret e w' -> snd (drv w) `prefix_of` snd (drv w').
Proof.
  revert w. induction l as [|t l IH]; intros w; cbn.
  - by intros [= _ <-].
  - destruct (commit_trans t 0 w) as [w1|e1 w1|e1 w1|] eqn:Et; [ | | | done].
    + intros H. etrans; [|by apply IH].
      apply (commit_trans_log t 0). by rewrite Et.
    + assert (snd (drv w) `prefix_of` snd (drv w1))
        by (apply (commit_trans_log t 0); by rewrite Et).
      destruct (Z.eqb_spec e1 0) as [->|]; [|by intros [= _ <-]].
      intros H'. etrans; [done | by apply IH].
    + intros [= _ <-]. apply (commit_trans_log t 0). by rewrite Et.
Qed.

(** C3: the walk takes the records in list order; a record of another family
    or on a chain without [NFT_CHAIN_HW_OFFLOAD] is passed over; when the
    records before [t] were passed over or succeeded and [t] fails, the commit
    returns the error of [t] in the state [t] left, whatever follows [t] in the
    list; the calls made for the earlier records are all still in that state's
    log, followed only by those made for [t]. *)
Theorem commit_walk_first_failure (pre post : list Trans) (t : Trans)
    (w w1 w2 : Net) (e : Z) :
  commit_list w = pre ++ t :: post ->
  commit_walk pre 0 w = Ret 0 w1 ->
  fails_with (commit_trans t 0 w1) e w2 ->
  nft_flow_rule_offload_commit w = Ret e w2
  /\ e <> 0
  /\ snd (drv w) `prefix_of` snd (drv w1)
  /\ snd (drv w1) `prefix_of` snd (drv w2)
  /\ (forall rest, commit_walk (pre ++ rest) 0 w = commit_walk rest 0 w1)
  /\ (forall (t0 : Trans) rest (w0 : Net),
        processed t0 w0 = false ->
        commit_walk (t0 :: rest) 0 w0 = commit_walk rest 0 w0).
Proof.
  intros Hlist Hpre Hfail.
  pose proof (fails_with_nonzero _ _ _ _ Hfail) as He.
  repeat split.
  - unfold nft_flow_rule_offload_commit. rewrite Hlist.
    rewrite (commit_walk_app _ _ _ _ Hpre). cbn.
    destruct Hfail as [[-> _] | ->]; [|done].
    by destruct (Z.eqb_spec e 0).
  - done.
  - by eapply commit_walk_log.
  - apply (commit_trans_log t 0).
    by destruct Hfail as [[-> _] | ->].
  - intros rest. by apply commit_walk_app.
  - intros t0 rest w0 Hskip. cbn.
    by destruct (commit_trans_skip t0 w0 Hskip) as [-> | ->].
Qed.

(** The rejection of a new rule does not look at the flow rule attached. *)
Lemma commit_trans_rejects (t : Trans) (err : Z) (w : Net) :
  msg_type t = NFT_MSG_NEWRULE ->
  processed t w = true ->
  not_pure_append t = true ->
  commit_trans t err w = Return (- EOPNOTSUPP) w.
Proof.
  intros Hm. commit_cases t w; try done; rewrite Hm in *; try done.
  by intros _ ->.
Qed.

(** C4: when the walk reaches a new-rule record of the device family, on a
    chain with [NFT_CHAIN_HW_OFFLOAD], whose flags have [NLM_F_REPLACE] or lack
    [NLM_F_APPEND], the commit returns [-EOPNOTSUPP], in the state the earlier
    records left; this is so whichever flow rule, or none, is attached to the
    record. *)
Theorem commit_rejects_insertion (pre post : list Trans) (t : Trans)
    (w w1 : Net) :
  commit_list w = pre ++ t :: post ->
  commit_walk pre 0 w = Ret 0 w1 ->
  msg_type t = NFT_MSG_NEWRULE ->
  processed t w1 = true ->
  not_pure_append t = true ->
  nft_flow_rule_offload_commit w = Ret (- EOPNOTSUPP) w1
  /\ (forall flow,
        commit_walk (pre ++ set_flow_rule flow t :: post) 0 w
        = Ret (- EOPNOTSUPP) w1).
Proof.
  intros Hlist Hpre Hm Hp Hna. split.
  - unfold nft_flow_rule_offload_commit.
    rewrite Hlist, (commit_walk_app _ _ _ _ Hpre). cbn.
    by rewrite commit_trans_rejects.
  - intros flow. rewrite (commit_walk_app _ _ _ _ Hpre). cbn.
    by rewrite commit_trans_rejects.
Qed.

(** C10: a new-rule record the walk acts on is either rejected for its
    insertion mode, and then the loop body returns [-EOPNOTSUPP] and leaves
    the state, with the flow rule of the record in it, as it was; or the
    replace command is dispatched, and then the flow rule is destroyed,
    whatever the dispatch returned.  No other path of the loop body changes
    the memory. *)
Theorem commit_trans_flow_rule_ownership (t : Trans) (err : Z) (w : Net) :
  msg_type t = NFT_MSG_NEWRULE ->
  processed t w = true ->
  (not_pure_append t = true ->
   commit_trans t err w = Return (- EOPNOTSUPP) w)
  /\ (not_pure_append t = false ->
      forall flow, trans_flow_rule t = Some flow ->
      let r := nft_flow_offload_rule t FLOW_CLS_REPLACE w in
      let m' := nft_flow_rule_destroy flow (mem w) in
      commit_trans t err w = Break (fst r) (set_mem m' (snd r))
      /\ live m' !! flow_addr flow = None
      /\ live m' !! rule_addr flow = None)
  /\ (forall (t0 : Trans) err0 (w0 w0' : Net),
        end_world (commit_trans t0 err0 w0) = Some w0' ->
        mem w0' <> mem w0 ->
        msg_type t0 = NFT_MSG_NEWRULE
        /\ processed t0 w0 = true
        /\ not_pure_append t0 = false
        /\ exists flow, trans_flow_rule t0 = Some flow
                        /\ mem w0' = nft_flow_rule_destroy flow (mem w0)).
Proof.
  intros Hm Hp. split; [by apply commit_trans_rejects|]. split.
  - intros Hna flow Hflow. cbv zeta.
    pose proof (nft_flow_offload_rule_frame t FLOW_CLS_REPLACE w)
      as (Hmem & _ & _). cbv zeta in Hmem.
    revert Hp Hna. commit_cases t w; try done; rewrite Hm in *; try done.
    intros _ ->. rewrite Hflow.
    destruct (nft_flow_offload_rule t FLOW_CLS_REPLACE w) as [e w'].
    cbn [fst snd] in *. rewrite Hmem. split; [done|].
    unfold nft_flow_rule_destroy. cbn.
    split; [apply lookup_delete_eq|].
    destruct (decide (flow_addr flow = rule_addr flow)) as [->|Hne].
    + apply lookup_delete_eq.
    + rewrite lookup_delete_ne by done. apply lookup_delete_eq.
  - clear. intros t0 err0 w0 w0'.
    commit_cases t0 w0; try (by intros [= <-]).
    + pose proof (nft_flow_offload_chain_frame t0 FLOW_BLOCK_BIND w0) as [H _].
      destruct (nft_flow_offload_chain _ _ _). by intros [= <-].
    + pose proof (nft_flow_offload_chain_frame t0 FLOW_BLOCK_UNBIND w0)
        as [H _].
      destruct (nft_flow_offload_chain _ _ _). by intros [= <-].
    + destruct (_ || _) eqn:Hna; [by intros [= <-]|].
      pose proof (nft_flow_offload_rule_frame t0 FLOW_CLS_REPLACE w0)
        as (H & _ & _).
      destruct (nft_flow_offload_rule _ _ _) as [e w'].
      destruct (trans_flow_rule t0) as [flow|]; [|done].
      intros [= <-] _. cbn in *. rewrite H.
      repeat split; try done; [by apply Z.eqb_eq | by exists flow].
    + pose proof (nft_flow_offload_rule_frame t0 FLOW_CLS_DESTROY w0)
        as (H & _ & _).
      destruct (nft_flow_offload_rule _ _ _). by intros [= <-].
Qed.

(** C5: a bind with a policy that is neither accept nor the unset one (the
    byte an assignment of [-1] leaves) returns [-EOPNOTSUPP] and changes
    nothing; with policy accept the bind of a base chain with a device
    returns what the block command returns.  So a
    commit of a single new-chain record of the device family, on a chain with
    [NFT_CHAIN_HW_OFFLOAD], returns [-EOPNOTSUPP] with policy drop, and with
    policy accept returns what the bind returns: 0, with the driver's
    callbacks spliced into the block, when the device's [ndo_setup_tc]
    does not fail. *)
Theorem commit_new_chain_policy (t : Trans) (w : Net) :
  commit_list w = [t] ->
  msg_type t = NFT_MSG_NEWCHAIN ->
  processed t w = true ->
  (trans_chain_policy t <> u8_byte (-1) ->
   nft_trans_chain_policy t <> NF_ACCEPT ->
   nft_flow_offload_chain t FLOW_BLOCK_BIND w = (- EOPNOTSUPP, w))
  /\ (nft_trans_chain_policy t = NF_DROP ->
      nft_flow_rule_offload_commit w = Ret (- EOPNOTSUPP) w)
  /\ (nft_trans_chain_policy t = NF_ACCEPT ->
      let bind := nft_flow_offload_chain t FLOW_BLOCK_BIND w in
      nft_flow_rule_offload_commit w = Ret (fst bind) (snd bind)
      /\ forall dev,
           nft_is_base_chain (chains w (ctx_chain t)) = true ->
           ops_dev (basechain_of (chains w (ctx_chain t))) = Some dev ->
           let r := block_cmd (basechain_of (chains w (ctx_chain t))) dev
                      FLOW_BLOCK_BIND (drv w) in
           fst bind = fst (fst r)
           /\ block_at (ctx_chain t) (snd bind)
              = cb_list (flow_block_of (snd (fst r)))
           /\ forall setup_tc,
                ndo_setup_tc dev = Some setup_tc ->
                let d := setup_tc TC_SETUP_BLOCK
                           (bo_init (basechain_of (chains w (ctx_chain t)))
                              FLOW_BLOCK_BIND) (fst (drv w)) in
                0 <= fst (fst d) ->
                fst bind = 0
                /\ block_at (ctx_chain t) (snd bind)
                   = bo_cb_list (snd (fst d))
                     ++ cb_list (bo_block (snd (fst d)))).
Proof.
  intros Hlist Hm Hp.
  assert (Hbody : commit_trans t 0 w
                  = Break (fst (nft_flow_offload_chain t FLOW_BLOCK_BIND w))
                      (snd (nft_flow_offload_chain t FLOW_BLOCK_BIND w))).
  { revert Hp. commit_cases t w; try done; [|by rewrite Hm in *..].
    intros _. by destruct (nft_flow_offload_chain _ _ _). }
  assert (Hcommit : nft_flow_rule_offload_commit w
                    = Ret (fst (nft_flow_offload_chain t FLOW_BLOCK_BIND w))
                        (snd (nft_flow_offload_chain t FLOW_BLOCK_BIND w))).
  { unfold nft_flow_rule_offload_commit. rewrite Hlist. cbn. rewrite Hbody.
    by destruct (_ =? 0). }
  split; [intros _; apply nft_flow_offload_chain_policy_guard|]. split.
  - intros Hdrop. rewrite Hcommit.
    by rewrite nft_flow_offload_chain_policy_guard by (by rewrite Hdrop).
  - intros Hpol. cbv zeta. split; [done|].
    intros dev Hbase Hdev.
    rewrite (nft_flow_offload_chain_proceeds t FLOW_BLOCK_BIND w dev
               Hbase Hdev (or_intror Hpol)).
    cbv zeta. cbn [fst snd]. rewrite block_at_set_basechain.
    split; [done|]. split; [done|].
    intros setup_tc Hndo Hok. unfold block_cmd, nft_block_offload_cmd.
    rewrite Hndo. destruct (setup_tc _ _ _) as [[e bo] h]. cbn in Hok |- *.
    destruct (Z.ltb_spec e 0); [lia|]. done.
Qed.

(** * Further properties of the code *)

Local Abbreviation nft_indr_block_get_and_ing_cmd :=
  (nft_indr_block_get_and_ing_cmd flow_block_cb_free).
Local Abbreviation indr_tables_walk := (indr_tables_walk flow_block_cb_free).
Local Abbreviation indr_chains_walk := (indr_chains_walk flow_block_cb_free).
Local Abbreviation nft_indr_block_ing_cmd :=
  (nft_indr_block_ing_cmd flow_block_cb_free).
Local Abbreviation free_cb_list := (free_cb_list flow_block_cb_free).

(** ** Register descriptors *)

Lemma lookup_repeat_lt {A} (x : A) (n i : nat) :
  (i < n)%nat -> repeat x n !! i = Some x.
Proof.
  revert i. induction n as [|n IH]; intros i Hi; [lia|].
  destruct i as [|i]; cbn; [done|]. apply IH. lia.
Qed.

Lemma repeat_drop_repeat {A} (x : A) (n2 n1 : nat) (l : list A) :
  (n2 <= n1)%nat ->
  repeat x n2 ++ drop n2 (repeat x n1 ++ l) = repeat x n1 ++ l.
Proof.
  revert n1. induction n2 as [|n2 IH]; intros n1 Hn; [done|].
  destruct n1 as [|n1]; [lia|]. cbn. f_equal. apply IH. lia.
Qed.

(** X1: for a length within the mask, [NFT_OFFLOAD_MATCH] stores the key, the
    length and the two offsets, each as the [u32] member holds it (the value
    modulo [2 ^ 32]), sets the first [len] bytes of the mask to [0xff] and
    leaves every later byte of the mask as it was, stale bytes of an earlier
    use included. *)
Theorem NFT_OFFLOAD_MATCH_mask (key base_offset offset len : Z)
    (reg : nft_offload_reg) :
  0 <= len < 2 ^ 32 ->
  (Z.to_nat len <= length (reg_mask reg))%nat ->
  exists reg',
    NFT_OFFLOAD_MATCH key base_offset offset len reg = Some reg'
    /\ reg_key reg' = key mod 2 ^ 32 /\ reg_len reg' = len
    /\ reg_base_offset reg' = base_offset mod 2 ^ 32
    /\ reg_offset reg' = offset mod 2 ^ 32
    /\ length (reg_mask reg') = length (reg_mask reg)
    /\ (forall i, (i < Z.to_nat len)%nat -> reg_mask reg' !! i = Some xff)
    /\ (forall i, (Z.to_nat len <= i)%nat ->
                  reg_mask reg' !! i = reg_mask reg !! i).
Proof.
  intros Hlen Hfit. unfold NFT_OFFLOAD_MATCH.
  rewrite (Z.mod_small len) by lia. cbv zeta.
  destruct (Nat.leb_spec (Z.to_nat len) (length (reg_mask reg))); [|lia].
  eexists. split; [reflexivity|]. cbn.
  repeat apply conj; try reflexivity.
  - rewrite length_app, repeat_length, length_drop. lia.
  - intros i Hi. rewrite lookup_app_l by (rewrite repeat_length; lia).
    by apply lookup_repeat_lt.
  - intros i Hi. rewrite lookup_app_r by (rewrite repeat_length; lia).
    rewrite repeat_length, lookup_drop. f_equal. lia.
Qed.

(** X2: a register that is described again with a length that is not larger
    keeps the mask of the first description: the macro never clears mask
    bytes, so the mask does not shrink with the length. *)
Theorem NFT_OFFLOAD_MATCH_no_shrink (k1 b1 o1 len1 k2 b2 o2 len2 : Z)
    (reg reg1 reg2 : nft_offload_reg) :
  0 <= len2 <= len1 -> len1 < 2 ^ 32 ->
  NFT_OFFLOAD_MATCH k1 b1 o1 len1 reg = Some reg1 ->
  NFT_OFFLOAD_MATCH k2 b2 o2 len2 reg1 = Some reg2 ->
  reg_len reg2 = len2 /\ reg_mask reg2 = reg_mask reg1.
Proof.
  intros H2 H1. unfold NFT_OFFLOAD_MATCH.
  rewrite (Z.mod_small len1), (Z.mod_small len2) by lia. cbv zeta.
  destruct (_ <=? _)%nat; [|done]. intros [= <-]. cbn.
  destruct (_ <=? _)%nat; [|done]. intros [= <-]. cbn.
  split; [done|]. apply repeat_drop_repeat. lia.
Qed.

(** ** Dependency tracking, continued *)

(** X3: arming a dependency discards one that was pending; a network capture
    followed by a transport capture, each armed before its use and given the
    length of its field, leaves both protocol numbers in the context, raises
    no warning and leaves no dependency pending. *)
Theorem nft_offload_dependency_rearm (ctx : nft_offload_ctx)
    (prior : nft_offload_dep_type) (d3 d4 : nat -> byte) :
  let c0 := nft_offload_set_dependency
              (nft_offload_set_dependency ctx prior)
              NFT_OFFLOAD_DEP_NETWORK in
  let r1 := nft_offload_update_dependency c0 d3 2 in
  let r2 := nft_offload_update_dependency
              (nft_offload_set_dependency (snd r1) NFT_OFFLOAD_DEP_TRANSPORT)
              d4 1 in
  c0 = nft_offload_set_dependency ctx NFT_OFFLOAD_DEP_NETWORK
  /\ fst r1 = false /\ fst r2 = false
  /\ l3num (dep (snd r2)) = (d3 0%nat, d3 1%nat)
  /\ protonum (dep (snd r2)) = d4 0%nat
  /\ dep_type (dep (snd r2)) = NFT_OFFLOAD_DEP_UNSPEC
  /\ num_actions (snd r2) = num_actions ctx
  /\ regs (snd r2) = regs ctx.
Proof. destruct ctx as [[ty l3 l4] na rg]. cbn. repeat apply conj; reflexivity. Qed.
(** ** The compiler, continued *)

(** What a successful compilation returns and leaves in memory. *)
Lemma nft_flow_rule_create_inl (rule : Rule) (m m' : kmem) (flow : FlowRule) :
  nft_flow_rule_create rule m = (inl flow, m') ->
  let n := count_actions (exprs rule) 0 mod 2 ^ 32 in
  exists o,
    (flow_addr flow ∉ dom (live m)) /\ (rule_addr flow ∉ dom (live m))
    /\ flow_addr flow <> rule_addr flow
    /\ num_entries flow = n
    /\ m' = Kmem (<[rule_addr flow := KFlowRule n]>
                    (<[flow_addr flow := KNftFlowRule]> (live m))) o.
Proof.
  unfold nft_flow_rule_create. cbv zeta.
  destruct (nft_flow_rule_alloc_cases (count_actions (exprs rule) 0) m)
    as [(m1 & -> & _) | (f & r & o & Hf & Hr & Hne & ->)]; [done|].
  cbn [body]. destruct (offload_exprs _ _ _) as [[ctx b]|e]; [|done].
  intros [= <- <-]. by exists o.
Qed.

(** X4: whenever [nft_flow_rule_create] returns a flow rule, it has allocated
    exactly two objects, at two distinct addresses that were free, one of them
    a [struct flow_rule] with room for [num_entries] actions, and
    [num_entries] is the count of the first walk. *)
Theorem nft_flow_rule_create_success_allocates (rule : Rule) (m m' : kmem)
    (flow : FlowRule) :
  nft_flow_rule_create rule m = (inl flow, m') ->
  (flow_addr flow ∉ dom (live m)) /\ (rule_addr flow ∉ dom (live m))
  /\ flow_addr flow <> rule_addr flow
  /\ num_entries flow = count_actions (exprs rule) 0 mod 2 ^ 32
  /\ 0 <= num_entries flow
  /\ live m'
     = <[rule_addr flow := KFlowRule (num_entries flow)]>
         (<[flow_addr flow := KNftFlowRule]> (live m)).
Proof.
  intros Hc. destruct (nft_flow_rule_create_inl _ _ _ _ Hc)
    as (o & Hf & Hr & Hne & Hn & ->).
  rewrite Hn. repeat apply conj; try done.
  apply Z.mod_pos_bound. lia.
Qed.

(** X5: destroying the flow rule that [nft_flow_rule_create] returned gives
    back the memory as it was before the compilation. *)
Theorem nft_flow_rule_create_destroy (rule : Rule) (m m' : kmem)
    (flow : FlowRule) :
  nft_flow_rule_create rule m = (inl flow, m') ->
  live (nft_flow_rule_destroy flow m') = live m.
Proof.
  intros Hc. destruct (nft_flow_rule_create_inl _ _ _ _ Hc)
    as (o & Hf & Hr & Hne & Hn & ->).
  destruct flow as [f r n b]. by apply nft_flow_rule_destroy_alloc.
Qed.

Lemma count_actions_null_ops (pre post : list Expr) (e : Expr) (n : Z) :
  ops e = None -> count_actions (pre ++ e :: post) n = count_actions pre n.
Proof.
  intros He. revert n. induction pre as [|p pre IH]; intros n; cbn.
  - by rewrite He.
  - destruct (ops p); [apply IH | done].
Qed.

Lemma offload_exprs_null_ops (pre post : list Expr) (e : Expr)
    (ctx : nft_offload_ctx) (b : Body) :
  ops e = None ->
  offload_exprs (pre ++ e :: post) ctx b = offload_exprs pre ctx b.
Proof.
  intros He. revert ctx b. induction pre as [|p pre IH]; intros ctx b; cbn.
  - by rewrite He.
  - destruct (ops p) as [o|]; [|done]. destruct (offload o) as [f|]; [|done].
    destruct (f ctx b (expr_data p)) as [[err ctx'] b'].
    destruct (err <? 0); [done | apply IH].
Qed.

(** X6: both walks end at the first expression whose [ops] is NULL: that
    expression and all that follow it are neither counted nor compiled, so
    the rule compiles as the expressions before it alone do, even when a later
    expression has no offload function. *)
Theorem nft_flow_rule_create_stops_at_null_ops (pre post : list Expr)
    (e : Expr) (m : kmem) :
  ops e = None ->
  nft_flow_rule_create {| exprs := pre ++ e :: post |} m
  = nft_flow_rule_create {| exprs := pre |} m.
Proof.
  intros He. unfold nft_flow_rule_create. cbn [exprs].
  rewrite count_actions_null_ops by done. cbv zeta.
  destruct (nft_flow_rule_alloc _ m) as [[flow|] m1]; [|done].
  by rewrite offload_exprs_null_ops.
Qed.

Lemma nft_flow_rule_alloc_fails (n : Z) (m : kmem) :
  allocs_succeed 2 m = false ->
  exists m', nft_flow_rule_alloc n m = (None : option FlowRule, m')
             /\ live m' = live m.
Proof.
  unfold allocs_succeed, nft_flow_rule_alloc, flow_rule_alloc, kzalloc.
  destruct (oom m) as [|[] [|[] later]] eqn:E; cbn; try done; intros _.
  - eexists. by split.
  - eexists. by split.
  - eexists. by split.
  - eexists. split; [reflexivity|]. cbn.
    apply delete_insert_id, not_elem_of_dom, is_fresh.
Qed.

(** X7: when one of the two allocations fails, [nft_flow_rule_create] returns
    [-ENOMEM] whatever the rule holds, and nothing stays allocated. *)
Theorem nft_flow_rule_create_alloc_failure (rule : Rule) (m : kmem) :
  allocs_succeed 2 m = false ->
  exists m', nft_flow_rule_create rule m = (inr (- ENOMEM), m')
             /\ live m' = live m.
Proof.
  intros Hoom. unfold nft_flow_rule_create. cbv zeta.
  destruct (nft_flow_rule_alloc_fails (count_actions (exprs rule) 0) m Hoom)
    as (m' & -> & Hlive).
  by exists m'.
Qed.

Lemma offload_exprs_error (es : list Expr) (ctx : nft_offload_ctx) (b : Body)
    (err : Z) :
  offload_exprs es ctx b = inr err ->
  err < 0
  /\ (err = - EOPNOTSUPP
      \/ exists e o f ctx0 b0,
           In e es /\ ops e = Some o /\ offload o = Some f
           /\ fst (fst (f ctx0 b0 (expr_data e))) = err).
Proof.
  revert ctx b. induction es as [|e es IH]; intros ctx b; cbn; [done|].
  destruct (ops e) as [o|] eqn:Eo; [|done].
  destruct (offload o) as [f|] eqn:Ef.
  - destruct (f ctx b (expr_data e)) as [[err' ctx'] b'] eqn:Ecall.
    destruct (Z.ltb_spec err' 0).
    + intros [= <-]. split; [done|]. right.
      exists e, o, f, ctx, b. rewrite Ecall. repeat split; try done. by left.
    + intros [Hneg [-> | (e0 & o0 & f0 & c0 & b0 & Hin & Hsrc)]]%IH.
      * split; [done | by left].
      * split; [done|]. right. exists e0, o0, f0, c0, b0.
        split; [by right | done].
  - intros [= <-]. split; [done | by left].
Qed.

(** X8: an error returned by [nft_flow_rule_create] is negative, and it is
    [-ENOMEM], or [-EOPNOTSUPP], or the value some expression's offload
    function returned. *)
Theorem nft_flow_rule_create_error (rule : Rule) (m m' : kmem) (err : Z) :
  nft_flow_rule_create rule m = (inr err, m') ->
  err < 0
  /\ (err = - ENOMEM \/ err = - EOPNOTSUPP
      \/ exists e o f ctx b,
           In e (exprs rule) /\ ops e = Some o /\ offload o = Some f
           /\ fst (fst (f ctx b (expr_data e))) = err).
Proof.
  unfold nft_flow_rule_create. cbv zeta.
  destruct (nft_flow_rule_alloc _ m) as [[flow|] m1].
  - destruct (offload_exprs _ _ _) as [[ctx b]|e] eqn:Eo; [done|].
    intros [= <- _]. apply offload_exprs_error in Eo as [Hneg Hsrc].
    split; [done|]. destruct Hsrc as [-> | H]; auto.
  - intros [= <- _]. split; [done | by left].
Qed.

Lemma offload_exprs_keeps_l3num (es : list Expr) (ctx ctx' : nft_offload_ctx)
    (b b' : Body) :
  Forall keeps_l3num es ->
  offload_exprs es ctx b = inl (ctx', b') ->
  l3num (dep ctx') = l3num (dep ctx).
Proof.
  intros Hk. revert ctx b.
  induction Hk as [|e es He Hes IH]; intros ctx b; cbn.
  - by intros [= <- _].
  - destruct (ops e) as [o|] eqn:Eo; [|by intros [= <- _]].
    destruct (offload o) as [f|] eqn:Ef; [|done].
    pose proof (He o f ctx b Eo Ef) as Hkeep.
    destruct (f ctx b (expr_data e)) as [[err ctx1] b1]. cbn in Hkeep.
    destruct (err <? 0); [done|]. intros H%IH. congruence.
Qed.

(** X9: when no expression of the rule changes the layer 3 protocol held in
    the context, the protocol tag of the compiled rule is zero, whatever the
    expressions wrote into the flow rule. *)
Theorem nft_flow_rule_create_proto_unset (rule : Rule) (m m' : kmem)
    (flow : FlowRule) :
  Forall keeps_l3num (exprs rule) ->
  nft_flow_rule_create rule m = (inl flow, m') ->
  proto (body flow) = (x00, x00).
Proof.
  intros Hk. unfold nft_flow_rule_create. cbv zeta.
  destruct (nft_flow_rule_alloc _ m) as [[flow0|] m1]; [|done].
  destruct (offload_exprs _ _ _) as [[ctx b]|e] eqn:Eo; [|done].
  intros [= <- _]. cbn.
  by rewrite (offload_exprs_keeps_l3num _ _ _ _ _ Hk Eo).
Qed.
(** ** Per-rule commands, continued *)

(** X10: a per-rule command never returns a positive value (a positive value
    returned by a callback counts as success), and it changes neither the
    memory nor any chain, table or commit record; on a chain that is not a
    base chain it returns [-EOPNOTSUPP] and calls nothing. *)
Theorem nft_flow_offload_rule_effects (trans : Trans)
    (command : flow_cls_command) (w : Net) :
  let r := nft_flow_offload_rule trans command w in
  fst r <= 0
  /\ mem (snd r) = mem w /\ chains (snd r) = chains w
  /\ tables (snd r) = tables w /\ commit_list (snd r) = commit_list w
  /\ snd (drv w) `prefix_of` snd (drv (snd r))
  /\ (nft_is_base_chain (chains w (ctx_chain trans)) = false ->
      r = (- EOPNOTSUPP, w)).
Proof.
  cbv zeta. unfold nft_flow_offload_rule.
  destruct (nft_is_base_chain _); cbn [negb]; [|by repeat apply conj].
  unfold nft_setup_cb_call.
  pose proof (cb_list_walk_nonpos (block_at (ctx_chain trans) w)
                TC_SETUP_CLSFLOWER (cls_flow_of trans command) (drv w)) as Hn.
  pose proof (cb_list_walk_log (block_at (ctx_chain trans) w)
                TC_SETUP_CLSFLOWER (cls_flow_of trans command) (drv w)) as Hl.
  unfold block_at in Hn, Hl.
  destruct (cb_list_walk _ _ _ _) as [err s]. by repeat apply conj.
Qed.

(** ** Binding and unbinding, continued *)

Lemma free_cb_list_trace (l : list BlockCb) (s : DState) :
  snd (free_cb_list l s) = snd s ++ free_events l.
Proof.
  revert s. induction l as [|c l IH]; intros s; cbn.
  - by rewrite app_nil_r.
  - rewrite IH. cbn. by rewrite <- app_assoc.
Qed.

(** The direct strategy, spelled out. *)
Lemma nft_flow_offload_chain_direct (trans : Trans)
    (cmd : flow_block_command) (w : Net) (dev : net_device)
    (setup_tc : tc_setup_type -> flow_block_offload -> HW ->
                Z * flow_block_offload * HW) :
  nft_is_base_chain (chains w (ctx_chain trans)) = true ->
  ops_dev (basechain_of (chains w (ctx_chain trans))) = Some dev ->
  ndo_setup_tc dev = Some setup_tc ->
  is_bind cmd = false \/ nft_trans_chain_policy trans = NF_ACCEPT ->
  let bc := basechain_of (chains w (ctx_chain trans)) in
  let d := setup_tc TC_SETUP_BLOCK (bo_init bc cmd) (fst (drv w)) in
  let bo := snd (fst d) in
  let s := (snd d, snd (drv w) ++ [EvNdoSetupTc (name dev) cmd]) in
  nft_flow_offload_chain trans cmd w
  = if fst (fst d) <? 0
    then (fst (fst d),
          set_basechain (ctx_chain trans) (set_flow_block (bo_block bo) bc)
            (set_drv s w))
    else match cmd with
         | FLOW_BLOCK_BIND =>
             (0, set_basechain (ctx_chain trans)
                   (set_flow_block
                      {| cb_list := bo_cb_list bo ++ cb_list (bo_block bo) |}
                      bc)
                   (set_drv s w))
         | FLOW_BLOCK_UNBIND =>
             (0, set_basechain (ctx_chain trans)
                   (set_flow_block (bo_block bo) bc)
                   (set_drv (free_cb_list (bo_cb_list bo) s) w))
         end.
Proof.
  intros Hbase Hdev Hndo Hpol.
  rewrite (nft_flow_offload_chain_proceeds trans cmd w dev Hbase Hdev Hpol).
  cbv zeta. unfold block_cmd, nft_block_offload_cmd. rewrite Hndo.
  destruct (setup_tc _ _ _) as [[e bo] h]. cbn [fst snd].
  destruct (e <? 0); [done|]. by destruct cmd.
Qed.

(** X11: when the device's [ndo_setup_tc] fails, binding or unbinding returns
    its error after that single call: nothing is spliced into the chain's
    block and no callback is freed. *)
Theorem nft_flow_offload_chain_direct_failure (trans : Trans)
    (cmd : flow_block_command) (w : Net) (dev : net_device)
    (setup_tc : tc_setup_type -> flow_block_offload -> HW ->
                Z * flow_block_offload * HW) :
  nft_is_base_chain (chains w (ctx_chain trans)) = true ->
  ops_dev (basechain_of (chains w (ctx_chain trans))) = Some dev ->
  ndo_setup_tc dev = Some setup_tc ->
  is_bind cmd = false \/ nft_trans_chain_policy trans = NF_ACCEPT ->
  let d := setup_tc TC_SETUP_BLOCK
             (bo_init (basechain_of (chains w (ctx_chain trans))) cmd)
             (fst (drv w)) in
  fst (fst d) < 0 ->
  let res := nft_flow_offload_chain trans cmd w in
  fst res = fst (fst d)
  /\ block_at (ctx_chain trans) (snd res) = cb_list (bo_block (snd (fst d)))
  /\ drv (snd res)
     = (snd d, snd (drv w) ++ [EvNdoSetupTc (name dev) cmd]).
Proof.
  intros Hbase Hdev Hndo Hpol d Hneg res. subst res.
  rewrite (nft_flow_offload_chain_direct trans cmd w dev setup_tc
             Hbase Hdev Hndo Hpol).
  cbv zeta. fold d. destruct (Z.ltb_spec (fst (fst d)) 0); [|lia].
  cbn [fst snd]. by rewrite block_at_set_basechain.
Qed.

(** X12: unbinding through the device's [ndo_setup_tc] does not look at the
    policy of the record; when the driver accepts, the result is 0, every
    callback the driver put on the descriptor's list is freed, in list order,
    and the chain's block is the one the driver left. *)
Theorem nft_flow_offload_chain_direct_unbind (trans : Trans) (w : Net)
    (dev : net_device)
    (setup_tc : tc_setup_type -> flow_block_offload -> HW ->
                Z * flow_block_offload * HW) :
  nft_is_base_chain (chains w (ctx_chain trans)) = true ->
  ops_dev (basechain_of (chains w (ctx_chain trans))) = Some dev ->
  ndo_setup_tc dev = Some setup_tc ->
  let d := setup_tc TC_SETUP_BLOCK
             (bo_init (basechain_of (chains w (ctx_chain trans)))
                FLOW_BLOCK_UNBIND)
             (fst (drv w)) in
  0 <= fst (fst d) ->
  let res := nft_flow_offload_chain trans FLOW_BLOCK_UNBIND w in
  fst res = 0
  /\ block_at (ctx_chain trans) (snd res) = cb_list (bo_block (snd (fst d)))
  /\ snd (drv (snd res))
     = snd (drv w)
       ++ EvNdoSetupTc (name dev) FLOW_BLOCK_UNBIND
          :: free_events (bo_cb_list (snd (fst d))).
Proof.
  intros Hbase Hdev Hndo d Hok res. subst res.
  rewrite (nft_flow_offload_chain_direct trans FLOW_BLOCK_UNBIND w dev
             setup_tc Hbase Hdev Hndo (or_introl eq_refl)).
  cbv zeta. fold d. destruct (Z.ltb_spec (fst (fst d)) 0); [lia|].
  cbn [fst snd]. rewrite block_at_set_basechain.
  cbn [drv set_drv set_basechain].
  rewrite free_cb_list_trace. cbn [snd]. by rewrite <- app_assoc.
Qed.

(** X13: unbinding a chain whose device has no [ndo_setup_tc] goes through
    [flow_indr_block_call]; when no callback puts itself on the descriptor's
    list the unbind fails with [-EOPNOTSUPP] and frees nothing, otherwise it
    returns 0 and frees the callbacks of that list in order. *)
Theorem nft_flow_offload_chain_indirect_unbind (trans : Trans) (w : Net)
    (dev : net_device) :
  nft_is_base_chain (chains w (ctx_chain trans)) = true ->
  ops_dev (basechain_of (chains w (ctx_chain trans))) = Some dev ->
  ndo_setup_tc dev = None ->
  let r := flow_indr_block_call dev
             (bo_init (basechain_of (chains w (ctx_chain trans)))
                FLOW_BLOCK_UNBIND)
             FLOW_BLOCK_UNBIND (fst (drv w)) in
  let res := nft_flow_offload_chain trans FLOW_BLOCK_UNBIND w in
  block_at (ctx_chain trans) (snd res) = cb_list (bo_block (fst r))
  /\ (bo_cb_list (fst r) = [] ->
      fst res = - EOPNOTSUPP
      /\ drv (snd res)
         = (snd r,
            snd (drv w) ++ [EvIndrBlockCall (name dev) FLOW_BLOCK_UNBIND]))
  /\ (bo_cb_list (fst r) <> [] ->
      fst res = 0
      /\ snd (drv (snd res))
         = snd (drv w)
           ++ EvIndrBlockCall (name dev) FLOW_BLOCK_UNBIND
              :: free_events (bo_cb_list (fst r))).
Proof.
  intros Hbase Hdev Hndo r res. subst res.
  rewrite (nft_flow_offload_chain_proceeds trans FLOW_BLOCK_UNBIND w dev
             Hbase Hdev (or_introl eq_refl)).
  cbv zeta. unfold block_cmd. rewrite Hndo.
  unfold nft_indr_block_offload_cmd. fold r.
  destruct r as [bo h]. cbn [fst snd].
  destruct (bo_cb_list bo) as [|b l] eqn:El; cbn [fst snd];
    rewrite block_at_set_basechain; cbn.
  - repeat split; try done.
  - repeat split; try done.
    rewrite free_cb_list_trace, El. cbn. by rewrite <- app_assoc.
Qed.

(** X14: a bind followed by an unbind of the same chain, with a driver that
    on bind only fills the descriptor's list and on unbind moves exactly
    those callbacks from the block to the descriptor's list, leaves the
    chain's block as it was before the bind, and frees each of the bound
    callbacks once. *)
Theorem nft_flow_offload_chain_bind_unbind (t1 t2 : Trans) (w : Net)
    (dev : net_device)
    (setup_tc : tc_setup_type -> flow_block_offload -> HW ->
                Z * flow_block_offload * HW) :
  ctx_chain t2 = ctx_chain t1 ->
  nft_is_base_chain (chains w (ctx_chain t1)) = true ->
  ops_dev (basechain_of (chains w (ctx_chain t1))) = Some dev ->
  ndo_setup_tc dev = Some setup_tc ->
  nft_trans_chain_policy t1 = NF_ACCEPT ->
  let bc := basechain_of (chains w (ctx_chain t1)) in
  let d1 := setup_tc TC_SETUP_BLOCK (bo_init bc FLOW_BLOCK_BIND)
              (fst (drv w)) in
  let l := bo_cb_list (snd (fst d1)) in
  0 <= fst (fst d1) ->
  bo_block (snd (fst d1)) = flow_block_of bc ->
  let bc1 := set_flow_block
               {| cb_list := l ++ cb_list (flow_block_of bc) |} bc in
  let d2 := setup_tc TC_SETUP_BLOCK (bo_init bc1 FLOW_BLOCK_UNBIND)
              (snd d1) in
  0 <= fst (fst d2) ->
  bo_cb_list (snd (fst d2)) = l ->
  cb_list (bo_block (snd (fst d2))) = cb_list (flow_block_of bc) ->
  let w1 := snd (nft_flow_offload_chain t1 FLOW_BLOCK_BIND w) in
  let res := nft_flow_offload_chain t2 FLOW_BLOCK_UNBIND w1 in
  block_at (ctx_chain t1) w1 = l ++ block_at (ctx_chain t1) w
  /\ fst res = 0
  /\ block_at (ctx_chain t1) (snd res) = block_at (ctx_chain t1) w
  /\ snd (drv (snd res))
     = snd (drv w)
       ++ [EvNdoSetupTc (name dev) FLOW_BLOCK_BIND;
           EvNdoSetupTc (name dev) FLOW_BLOCK_UNBIND]
       ++ free_events l.
Proof.
  intros Hc Hbase Hdev Hndo Hpol bc d1 l Hok1 Hblk bc1 d2 Hok2 Hl Hrest w1 res.
  assert (Hw1 : nft_flow_offload_chain t1 FLOW_BLOCK_BIND w
                = (0, set_basechain (ctx_chain t1) bc1
                        (set_drv (snd d1,
                                  snd (drv w)
                                  ++ [EvNdoSetupTc (name dev) FLOW_BLOCK_BIND])
                           w))).
  { rewrite (nft_flow_offload_chain_direct t1 FLOW_BLOCK_BIND w dev setup_tc
               Hbase Hdev Hndo (or_intror Hpol)).
    cbv zeta. fold bc. fold d1.
    destruct (Z.ltb_spec (fst (fst d1)) 0); [lia|].
    fold l. unfold bc1. by rewrite Hblk. }
  subst w1 res. rewrite Hw1. cbn [snd].
  set (w1 := set_basechain _ _ _).
  assert (Hbc1 : basechain_of (chains w1 (ctx_chain t2)) = bc1).
  { rewrite Hc. subst w1. cbn. by rewrite Nat.eqb_refl. }
  assert (Hbase1 : nft_is_base_chain (chains w1 (ctx_chain t2)) = true).
  { rewrite Hc. subst w1. unfold nft_is_base_chain. cbn.
    by rewrite Nat.eqb_refl. }
  assert (Hdev1 : ops_dev (basechain_of (chains w1 (ctx_chain t2)))
                  = Some dev) by (by rewrite Hbc1).
  rewrite (nft_flow_offload_chain_direct t2 FLOW_BLOCK_UNBIND w1 dev setup_tc
             Hbase1 Hdev1 Hndo (or_introl eq_refl)).
  cbv zeta. rewrite Hbc1.
  assert (Hd2 : setup_tc TC_SETUP_BLOCK (bo_init bc1 FLOW_BLOCK_UNBIND)
                  (fst (drv w1)) = d2) by done.
  rewrite Hd2. destruct (Z.ltb_spec (fst (fst d2)) 0); [lia|].
  cbn [fst snd]. rewrite Hc, !block_at_set_basechain.
  cbn [drv set_drv set_basechain]. rewrite free_cb_list_trace, Hl. cbn [snd].
  repeat apply conj.
  - subst w1. by rewrite block_at_set_basechain.
  - done.
  - exact Hrest.
  - subst w1. cbn. by rewrite <- !app_assoc.
Qed.
(** ** Late join, continued *)

Lemma indr_chains_walk_app (a b : list nat) (dev : net_device)
    (indr_cb : flow_indr_block_bind_cb_t) (priv : Z)
    (cmd : flow_block_command) (w : Net) :
  indr_chains_walk (a ++ b) dev indr_cb priv cmd w
  = match indr_chains_walk a dev indr_cb priv cmd w with
    | Some w' => Some w'
    | None => indr_chains_walk b dev indr_cb priv cmd w
    end.
Proof.
  induction a as [|c a IH]; cbn; [done|].
  destruct (_ && _); [|apply IH].
  by match goal with |- context [let '(_, _) := ?x in _] => destruct x end.
Qed.

Lemma indr_chains_walk_no_match (cs : list nat) (dev : net_device)
    (indr_cb : flow_indr_block_bind_cb_t) (priv : Z)
    (cmd : flow_block_command) (w : Net) :
  forallb (fun c => negb (late_join_match dev w c)) cs = true ->
  indr_chains_walk cs dev indr_cb priv cmd w = None.
Proof.
  induction cs as [|c cs IH]; cbn; [done|].
  intros [Hc Hcs]%andb_prop. unfold late_join_match in Hc.
  destruct (_ && _); [done | by apply IH].
Qed.

(** The two nested loops are one search through the chains of the
    device-family tables. *)
Lemma indr_tables_walk_flat (ts : list nft_table) (dev : net_device)
    (indr_cb : flow_indr_block_bind_cb_t) (priv : Z)
    (cmd : flow_block_command) (w : Net) :
  indr_tables_walk ts dev indr_cb priv cmd w
  = match indr_chains_walk (netdev_chains ts) dev indr_cb priv cmd w with
    | Some w' => w'
    | None => w
    end.
Proof.
  unfold netdev_chains. induction ts as [|t ts IH]; cbn; [done|].
  destruct (family t =? NFPROTO_NETDEV); cbn [negb]; [|apply IH].
  cbn [map concat]. rewrite indr_chains_walk_app.
  by destruct (indr_chains_walk (table_chains t) _ _ _ _ _).
Qed.

(** X15: when no chain of a device-family table is a base chain whose device
    name matches the device, the late-join path changes nothing and never
    calls the callback. *)
Theorem late_join_no_match (dev : net_device)
    (indr_cb : flow_indr_block_bind_cb_t) (priv : Z)
    (cmd : flow_block_command) (w : Net) :
  forallb (fun c => negb (late_join_match dev w c))
    (netdev_chains (tables w)) = true ->
  nft_indr_block_get_and_ing_cmd dev indr_cb priv cmd w = w.
Proof.
  intros Hno. unfold nft_indr_block_get_and_ing_cmd.
  rewrite indr_tables_walk_flat.
  by rewrite indr_chains_walk_no_match.
Qed.

(** X16: the late-join path acts on the first chain, in table order and then
    chain order among the device-family tables, that is a base chain whose
    device name matches; whatever follows it is not looked at.  The callback
    is called once; on bind the callbacks it put on the descriptor's list are
    spliced in front of the block, on unbind they are freed; every other
    chain, the memory, the tables and the commit list stay as they were. *)
Theorem late_join_first_match (dev : net_device)
    (indr_cb : flow_indr_block_bind_cb_t) (priv : Z)
    (cmd : flow_block_command) (w : Net) (pre post : list nat) (c : nat) :
  netdev_chains (tables w) = pre ++ c :: post ->
  forallb (fun c' => negb (late_join_match dev w c')) pre = true ->
  late_join_match dev w c = true ->
  let r := indr_cb dev priv TC_SETUP_BLOCK
             (bo_init (basechain_of (chains w c)) cmd) (fst (drv w)) in
  let w' := nft_indr_block_get_and_ing_cmd dev indr_cb priv cmd w in
  (forall c', c' <> c -> chains w' c' = chains w c')
  /\ chain_flags (chains w' c) = chain_flags (chains w c)
  /\ mem w' = mem w /\ tables w' = tables w
  /\ commit_list w' = commit_list w
  /\ match cmd with
     | FLOW_BLOCK_BIND =>
         block_at c w' = bo_cb_list (fst r) ++ cb_list (bo_block (fst r))
         /\ drv w'
            = (snd r, snd (drv w) ++ [EvIndrCb (name dev) priv cmd])
     | FLOW_BLOCK_UNBIND =>
         block_at c w' = cb_list (bo_block (fst r))
         /\ snd (drv w')
            = snd (drv w)
              ++ EvIndrCb (name dev) priv cmd
                 :: free_events (bo_cb_list (fst r))
     end.
Proof.
  intros Hcs Hpre Hc r w'. subst w'.
  unfold nft_indr_block_get_and_ing_cmd.
  rewrite indr_tables_walk_flat, Hcs, indr_chains_walk_app.
  rewrite indr_chains_walk_no_match by done.
  simpl. unfold late_join_match in Hc. rewrite Hc.
  unfold nft_indr_block_ing_cmd. fold r. destruct r as [bo h].
  cbn [fst snd].
  destruct cmd; simpl.
  - repeat apply conj; try done.
    + intros c' Hne. by destruct (Nat.eqb_spec c' c).
    + by rewrite Nat.eqb_refl.
    + by rewrite block_at_set_basechain.
  - repeat apply conj; try done.
    + intros c' Hne. by destruct (Nat.eqb_spec c' c).
    + by rewrite Nat.eqb_refl.
    + by rewrite block_at_set_basechain.
    + rewrite free_cb_list_trace. cbn. by rewrite <- app_assoc.
Qed.
(** ** The commit walk, continued *)

Lemma commit_frame_refl (w : Net) : commit_frame w w.
Proof. by repeat split. Qed.

Lemma commit_frame_trans (w1 w2 w3 : Net) :
  commit_frame w1 w2 -> commit_frame w2 w3 -> commit_frame w1 w3.
Proof.
  intros (Ht1 & Hl1 & Ho1 & Hm1 & Hc1) (Ht2 & Hl2 & Ho2 & Hm2 & Hc2).
  repeat split; try congruence; try (by etrans);
    destruct (Hc1 c) as (? & ? & ?), (Hc2 c) as (? & ? & ?); congruence.
Qed.

Lemma block_cmd_result (bc : nft_base_chain) (dev : net_device)
    (cmd : flow_block_command) (s : DState) :
  let r := block_cmd bc dev cmd s in
  fst (fst r) <= 0
  /\ ops_dev (snd (fst r)) = ops_dev bc
  /\ dev_name (snd (fst r)) = dev_name bc.
Proof.
  cbv zeta. unfold block_cmd, nft_block_offload_cmd,
    nft_indr_block_offload_cmd.
  destruct (ndo_setup_tc dev) as [f|].
  - destruct (f _ _ _) as [[err bo] h]. cbn zeta.
    destruct (Z.ltb_spec err 0); [cbn; by split; [lia|]|].
    by destruct cmd.
  - destruct (flow_indr_block_call _ _ _ _) as [bo h]. cbn zeta.
    destruct (bo_cb_list bo); [by cbn | by destruct cmd].
Qed.

(** What binding or unbinding a chain changes: the block of that chain and
    the driver state, nothing else. *)
Lemma nft_flow_offload_chain_effects (trans : Trans)
    (cmd : flow_block_command) (w : Net) :
  let r := nft_flow_offload_chain trans cmd w in
  fst r <= 0
  /\ mem (snd r) = mem w
  /\ commit_frame w (snd r)
  /\ forall c, c <> ctx_chain trans -> chains (snd r) c = chains w c.
Proof.
  cbv zeta. unfold nft_flow_offload_chain.
  destruct (nft_is_base_chain _); cbn [negb];
    [|by repeat split; try apply commit_frame_refl].
  destruct (ops_dev _) as [dev|] eqn:Hdev;
    [|by repeat split; try apply commit_frame_refl].
  destruct (_ && _); [by repeat split; try apply commit_frame_refl|].
  pose proof (block_cmd_result (basechain_of (chains w (ctx_chain trans)))
                dev cmd (drv w)) as (Hn & Hd & Hname).
  unfold block_cmd in Hn, Hd, Hname.
  destruct (match ndo_setup_tc dev with Some _ => _ | None => _ end)
    as [[err bc] s].
  cbn [fst snd] in *. repeat split; try done.
  - cbn. by destruct (Nat.eqb_spec c (ctx_chain trans)) as [->|].
  - cbn. destruct (Nat.eqb_spec c (ctx_chain trans)) as [->|]; [|done].
    cbn. congruence.
  - cbn. by destruct (Nat.eqb_spec c (ctx_chain trans)) as [->|].
  - intros c Hne. cbn. by destruct (Nat.eqb_spec c (ctx_chain trans)).
Qed.

Lemma nft_flow_rule_destroy_shrinks (flow : FlowRule) (m : kmem) :
  oom (nft_flow_rule_destroy flow m) = oom m
  /\ (live (nft_flow_rule_destroy flow m) ⊆ live m).
Proof.
  unfold nft_flow_rule_destroy. cbn. split; [done|].
  etrans; apply delete_subseteq.
Qed.

(** The three ways a new-rule record the walk acts on can go. *)
Lemma commit_trans_newrule (t : Trans) (err : Z) (w : Net) :
  msg_type t = NFT_MSG_NEWRULE ->
  processed t w = true ->
  (not_pure_append t = true
   /\ commit_trans t err w = Return (- EOPNOTSUPP) w)
  \/ (not_pure_append t = false /\ trans_flow_rule t = None
      /\ commit_trans t err w = Oops)
  \/ (not_pure_append t = false
      /\ exists flow,
           trans_flow_rule t = Some flow
           /\ commit_trans t err w
              = Break (fst (nft_flow_offload_rule t FLOW_CLS_REPLACE w))
                  (set_mem
                     (nft_flow_rule_destroy flow
                        (mem (snd (nft_flow_offload_rule t FLOW_CLS_REPLACE
                                     w))))
                     (snd (nft_flow_offload_rule t FLOW_CLS_REPLACE w)))).
Proof.
  intros Hm. commit_cases t w; try done; rewrite Hm in *; try done.
  intros _. destruct (_ || _); [by left | right].
  destruct (nft_flow_offload_rule t FLOW_CLS_REPLACE w) as [e w'].
  destruct (trans_flow_rule t) as [flow|]; [right | by left].
  split; [done|]. by exists flow.
Qed.

(** What one pass through the loop body changes. *)
Lemma commit_trans_effects (t : Trans) (w : Net) (b : body_end) :
  commit_trans t 0 w = b ->
  match b with
  | Continue w' => w' = w
  | Break e w' =>
      e <= 0 /\ commit_frame w w'
      /\ forall c, binds_chain c t = false -> chains w' c = chains w c
  | Return e w' => e = - EOPNOTSUPP /\ w' = w
  | Oops =>
      msg_type t = NFT_MSG_NEWRULE /\ processed t w = true
      /\ not_pure_append t = false /\ trans_flow_rule t = None
  end.
Proof.
  intros <-. unfold binds_chain.
  commit_cases t w; try done;
    repeat match goal with
           | H : (_ =? _) = true |- _ => apply Z.eqb_eq in H
           end.
  - pose proof (nft_flow_offload_chain_effects t FLOW_BLOCK_BIND w)
      as (Hn & _ & Hf & Hc).
    destruct (nft_flow_offload_chain t FLOW_BLOCK_BIND w) as [e w1].
    repeat split; try done; try apply Hf.
    intros c Hb. apply Hc. intros ->. by rewrite Nat.eqb_refl in Hb.
  - pose proof (nft_flow_offload_chain_effects t FLOW_BLOCK_UNBIND w)
      as (Hn & _ & Hf & Hc).
    destruct (nft_flow_offload_chain t FLOW_BLOCK_UNBIND w) as [e w1].
    repeat split; try done; try apply Hf.
    intros c Hb. apply Hc. intros ->.
    rewrite Nat.eqb_refl, orb_true_r in Hb. done.
  - destruct (_ || _) eqn:Hna; [done|].
    pose proof (nft_flow_offload_rule_frame t FLOW_CLS_REPLACE w)
      as (Hmem & Hch & _).
    pose proof (cb_list_walk_nonpos (block_at (ctx_chain t) w)
                  TC_SETUP_CLSFLOWER (cls_flow_of t FLOW_CLS_REPLACE) (drv w))
      as Hn.
    revert Hmem Hch Hn. unfold nft_flow_offload_rule, nft_setup_cb_call,
      block_at.
    destruct (nft_is_base_chain _); cbn [negb].
    + destruct (cb_list_walk _ _ _ _) as [e s]. cbn. intros _ _ Hn.
      destruct (trans_flow_rule t) as [flow|]; [|done].
      destruct (nft_flow_rule_destroy_shrinks flow (mem w)).
      by repeat split.
    + intros _ _ _. destruct (trans_flow_rule t) as [flow|]; [|done].
      destruct (nft_flow_rule_destroy_shrinks flow (mem w)).
      by repeat split.
  - pose proof (cb_list_walk_nonpos (block_at (ctx_chain t) w)
                  TC_SETUP_CLSFLOWER (cls_flow_of t FLOW_CLS_DESTROY) (drv w))
      as Hn.
    revert Hn. unfold nft_flow_offload_rule, nft_setup_cb_call, block_at.
    destruct (nft_is_base_chain _); cbn [negb].
    + destruct (cb_list_walk _ _ _ _) as [e s]. cbn. intros Hn.
      by repeat split.
    + intros _. by repeat split.
Qed.
Lemma processed_frame (t : Trans) (w w' : Net) :
  commit_frame w w' -> processed t w' = processed t w.
Proof.
  intros (_ & _ & _ & _ & Hc). unfold processed, chain_offloaded.
  by destruct (Hc (ctx_chain t)) as (-> & _ & _).
Qed.

Lemma commit_walk_effects (l : list Trans) (w w' : Net) (e : Z) :
  commit_walk l 0 w = Ret e w' ->
  e <= 0 /\ commit_frame w w'
  /\ forall c, forallb (fun t => negb (binds_chain c t)) l = true ->
               chains w' c = chains w c.
Proof.
  revert w. induction l as [|t l IH]; intros w; cbn.
  { intros [= <- <-]. repeat split; try done. }
  pose proof (commit_trans_effects t w _ eq_refl) as Ht.
  destruct (commit_trans t 0 w) as [w1|e1 w1|e1 w1|]; [ | | | done].
  - subst w1. intros (He & Hf & Hc)%IH. repeat split; try done; try apply Hf.
    intros c [_ Hl]%andb_prop. by apply Hc.
  - destruct Ht as (He1 & Hf1 & Hc1).
    destruct (Z.eqb_spec e1 0) as [->|].
    + intros (He & Hf & Hc)%IH.
      split; [done|]. split; [by eapply commit_frame_trans|].
      intros c [Ht Hl]%andb_prop. rewrite Hc by done.
      apply Hc1. by destruct (binds_chain c t).
    + intros [= <- <-]. split; [done|]. split; [done|].
      intros c [Ht Hl]%andb_prop. apply Hc1. by destruct (binds_chain c t).
  - destruct Ht as [-> ->]. intros [= <- <-].
    repeat split; try done.
Qed.

Lemma commit_walk_fault (l : list Trans) (w : Net) :
  commit_walk l 0 w = Fault ->
  exists t,
    In t l /\ msg_type t = NFT_MSG_NEWRULE /\ processed t w = true
    /\ not_pure_append t = false /\ trans_flow_rule t = None.
Proof.
  revert w. induction l as [|t l IH]; intros w; cbn; [done|].
  pose proof (commit_trans_effects t w _ eq_refl) as Ht.
  destruct (commit_trans t 0 w) as [w1|e1 w1|e1 w1|]; [ | | done | ].
  - subst w1. intros (t0 & Hin & H)%IH. exists t0. split; [by right | done].
  - destruct Ht as (_ & Hf & _). destruct (Z.eqb_spec e1 0) as [->|]; [|done].
    intros (t0 & Hin & Hm & Hp & H)%IH. exists t0.
    rewrite (processed_frame t0 w w1 Hf) in Hp. split; [by right | done].
  - intros _. exists t. split; [by left | done].
Qed.

Lemma commit_walk_frees (l : list Trans) (w w' : Net) :
  commit_walk l 0 w = Ret 0 w' ->
  forall t, In t l -> msg_type t = NFT_MSG_NEWRULE -> processed t w = true ->
  exists flow,
    trans_flow_rule t = Some flow
    /\ live (mem w') !! flow_addr flow = None
    /\ live (mem w') !! rule_addr flow = None.
Proof.
  revert w. induction l as [|t0 l IH]; intros w; cbn; [done|].
  pose proof (commit_trans_effects t0 w _ eq_refl) as Ht.
  destruct (commit_trans t0 0 w) as [w1|e1 w1|e1 w1|] eqn:Et0; [ | | | done].
  - subst w1. intros Hw t [-> | Hin] Hm Hp; [|by eapply IH].
    destruct (commit_trans_newrule t 0 w Hm Hp)
      as [[_ H] | [(_ & _ & H) | (_ & flow & _ & H)]]; congruence.
  - destruct Ht as (_ & Hf & _).
    destruct (Z.eqb_spec e1 0) as [->|]; [|by intros [= ? _]].
    intros Hw t [-> | Hin] Hm Hp.
    + destruct (commit_trans_newrule t 0 w Hm Hp)
        as [[_ H] | [(_ & _ & H) | (_ & flow & Hflow & H)]];
        [congruence.. |].
      rewrite H in Et0. injection Et0 as _ <-.
      exists flow. split; [done|].
      destruct (commit_walk_effects _ _ _ _ Hw) as (_ & (_ & _ & _ & Hsub & _) & _).
      cbn [mem set_mem] in Hsub.
      split; (eapply lookup_weaken_None; [|exact Hsub]);
        unfold nft_flow_rule_destroy; cbn.
      * apply lookup_delete_eq.
      * destruct (decide (flow_addr flow = rule_addr flow)) as [->|Hne];
          [apply lookup_delete_eq|].
        rewrite lookup_delete_ne by done. apply lookup_delete_eq.
    + apply (IH w1 Hw t Hin Hm). by rewrite (processed_frame t w w1 Hf).
  - destruct Ht as [-> _]. by intros [= ? _].
Qed.

(** X17: the commit never returns a positive value: a positive value coming
    back from a driver is not passed on. *)
Theorem commit_never_positive (w w' : Net) (e : Z) :
  nft_flow_rule_offload_commit w = Ret e w' -> e <= 0.
Proof. intros H. by destruct (commit_walk_effects _ _ _ _ H). Qed.

(** X18: whatever it returns, the commit allocates nothing, and leaves the
    tables, the commit list and, for every chain, the flags, the device and
    the device name as they were: blocks and driver state are all it changes,
    besides freeing flow rules. *)
Theorem commit_leaves_registry (w w' : Net) (e : Z) :
  nft_flow_rule_offload_commit w = Ret e w' ->
  tables w' = tables w
  /\ commit_list w' = commit_list w
  /\ oom (mem w') = oom (mem w)
  /\ (live (mem w') ⊆ live (mem w))
  /\ forall c,
       chain_flags (chains w' c) = chain_flags (chains w c)
       /\ ops_dev (basechain_of (chains w' c))
          = ops_dev (basechain_of (chains w c))
       /\ dev_name (basechain_of (chains w' c))
          = dev_name (basechain_of (chains w c)).
Proof. intros H. by destruct (commit_walk_effects _ _ _ _ H) as (_ & Hf & _). Qed.

(** X19: a chain that no new-chain or delete-chain record of the device
    family names is, block included, the same after the commit as before,
    whatever the commit returns. *)
Theorem commit_untouched_chain (w w' : Net) (e : Z) (c : nat) :
  forallb (fun t => negb (binds_chain c t)) (commit_list w) = true ->
  nft_flow_rule_offload_commit w = Ret e w' ->
  chains w' c = chains w c.
Proof.
  intros Hc H. destruct (commit_walk_effects _ _ _ _ H) as (_ & _ & Hch).
  by apply Hch.
Qed.

(** X20: a commit list without any record of the device family on a chain
    with [NFT_CHAIN_HW_OFFLOAD] makes the commit return 0 and change
    nothing. *)
Theorem commit_all_skipped (w : Net) :
  forallb (fun t => negb (processed t w)) (commit_list w) = true ->
  nft_flow_rule_offload_commit w = Ret 0 w.
Proof.
  unfold nft_flow_rule_offload_commit.
  induction (commit_list w) as [|t l IH]; cbn; [done|].
  intros [Ht Hl]%andb_prop. apply negb_true_iff in Ht.
  destruct (commit_trans_skip t w Ht) as [-> | ->]; by apply IH.
Qed.

(** X21: the commit dereferences a NULL pointer only when it reaches a
    new-rule record of the device family, on a chain with
    [NFT_CHAIN_HW_OFFLOAD], appended and not replacing, that has no flow rule
    attached. *)
Theorem commit_fault_cause (w : Net) :
  nft_flow_rule_offload_commit w = Fault ->
  exists t,
    In t (commit_list w) /\ msg_type t = NFT_MSG_NEWRULE
    /\ processed t w = true /\ not_pure_append t = false
    /\ trans_flow_rule t = None.
Proof. apply commit_walk_fault. Qed.

(** X22: after a commit that returned 0, the flow rule of every new-rule
    record the walk acted on has been freed. *)
Theorem commit_success_frees_flow_rules (w w' : Net) (t : Trans) :
  nft_flow_rule_offload_commit w = Ret 0 w' ->
  In t (commit_list w) ->
  msg_type t = NFT_MSG_NEWRULE ->
  processed t w = true ->
  exists flow,
    trans_flow_rule t = Some flow
    /\ live (mem w') !! flow_addr flow = None
    /\ live (mem w') !! rule_addr flow = None.
Proof. intros H. by apply commit_walk_frees. Qed.

End Properties.

(** * The properties on the samples *)

Lemma nft_flow_rule_create_offloadable_witness :
  Z.of_nat (length (exprs ex_rule)) < 2 ^ 31
  /\ forallb offloadable (exprs ex_rule) = true
  /\ offload_calls_succeed (exprs ex_rule) ctx_init (initial_body ex_rule)
  /\ allocs_succeed 2 ex_mem = true
  /\ exists flow m',
       nft_flow_rule_create ex_rule ex_mem = (inl flow, m')
       /\ num_entries flow = 1
       /\ live m' !! rule_addr flow = Some (KFlowRule 1).
Proof.
  assert (H1 : Z.of_nat (length (exprs ex_rule)) < 2 ^ 31) by (cbn; lia).
  assert (H2 : forallb offloadable (exprs ex_rule) = true) by reflexivity.
  assert (H3 : offload_calls_succeed (exprs ex_rule) ctx_init
                 (initial_body ex_rule)) by (cbn; repeat split; lia).
  assert (H4 : allocs_succeed 2 ex_mem = true) by reflexivity.
  destruct (nft_flow_rule_create_offloadable ex_rule ex_mem H1 H2 H3 H4)
    as (flow & m' & Hc & Hn & Hr & _).
  refine (conj H1 (conj H2 (conj H3 (conj H4 _)))).
  exists flow, m'. exact (conj Hc (conj Hn Hr)).
Defined.

(** With the same rule, an allocation that fails makes the compiler return
    [-ENOMEM] and no flow rule. *)
Lemma nft_flow_rule_create_enomem :
  forallb offloadable (exprs ex_rule) = true
  /\ offload_calls_succeed (exprs ex_rule) ctx_init (initial_body ex_rule)
  /\ nft_flow_rule_create ex_rule ex_mem_oom = (inr (- ENOMEM), ex_mem)
  /\ ~ (exists flow m',
          nft_flow_rule_create ex_rule ex_mem_oom = (inl flow, m')).
Proof.
  split; [reflexivity|]. split; [cbn; repeat apply conj; lia|].
  split; [reflexivity|]. intros (flow & m' & H). discriminate H.
Qed.



Lemma nft_flow_offload_rule_dispatch_witness :
  let w := ex_net [] in
  let data := cls_flow_of false ex_t_append FLOW_CLS_REPLACE in
  nft_is_base_chain (chains w (ctx_chain ex_t_append)) = true
  /\ block_at 3 w = [ex_cb 0 11] ++ ex_cb (-5) 12 :: [ex_cb 0 13]
  /\ fst (nft_flow_offload_rule false ex_t_append FLOW_CLS_REPLACE w) = -5
  /\ snd (drv (snd (nft_flow_offload_rule false ex_t_append FLOW_CLS_REPLACE
                      w)))
     = [EvBlockCb 11 TC_SETUP_CLSFLOWER data;
        EvBlockCb 12 TC_SETUP_CLSFLOWER data].
Proof.
  intros w data.
  destruct (nft_flow_offload_rule_dispatch false ex_t_append FLOW_CLS_REPLACE
              w eq_refl) as [_ H].
  destruct (H [ex_cb 0 11] (ex_cb (-5) 12) [ex_cb 0 13] eq_refl
              ltac:(cbn; repeat apply conj; lia) ltac:(cbn; lia)) as [Hr Ht].
  assert (H1 : fst (nft_flow_offload_rule false ex_t_append FLOW_CLS_REPLACE
                      w) = -5) by (rewrite Hr; reflexivity).
  assert (H2 : snd (drv (snd (nft_flow_offload_rule false ex_t_append
                                FLOW_CLS_REPLACE w)))
               = [EvBlockCb 11 TC_SETUP_CLSFLOWER data;
                  EvBlockCb 12 TC_SETUP_CLSFLOWER data])
    by (rewrite Hr; exact Ht).
  exact (conj eq_refl (conj eq_refl (conj H1 H2))).
Defined.

Lemma nft_flow_offload_chain_indirect_witness :
  let t := ex_t_newchain 2 NF_ACCEPT in
  let w := ex_net [t] in
  nft_is_base_chain (chains w (ctx_chain t)) = true
  /\ ops_dev (basechain_of (chains w (ctx_chain t))) = Some ex_eth1
  /\ ndo_setup_tc ex_eth1 = None
  /\ nft_trans_chain_policy t = NF_ACCEPT
  /\ fst (nft_flow_offload_chain ex_indr_none ex_cb_free t FLOW_BLOCK_BIND w)
     = - EOPNOTSUPP
  /\ block_at 2 (snd (nft_flow_offload_chain ex_indr_none ex_cb_free t
                        FLOW_BLOCK_BIND w)) = []
  /\ fst (nft_flow_offload_chain ex_indr_one ex_cb_free t FLOW_BLOCK_BIND w)
     = 0
  /\ block_at 2 (snd (nft_flow_offload_chain ex_indr_one ex_cb_free t
                        FLOW_BLOCK_BIND w)) = [ex_cb 0 41].
Proof.
  intros t w.
  destruct (nft_flow_offload_chain_indirect ex_indr_none ex_cb_free t w
              ex_eth1 eq_refl eq_refl eq_refl eq_refl)
    as (_ & Hnone & _).
  destruct (nft_flow_offload_chain_indirect ex_indr_one ex_cb_free t w
              ex_eth1 eq_refl eq_refl eq_refl eq_refl)
    as (_ & _ & Hone).
  destruct (Hnone eq_refl) as [H1 H2].
  destruct (Hone ltac:(discriminate)) as [H3 H4].
  exact (conj eq_refl (conj eq_refl (conj eq_refl (conj eq_refl
           (conj H1 (conj H2 (conj H3 H4))))))).
Defined.

Lemma commit_walk_first_failure_witness :
  let pre := [ex_t_other_family; ex_t_newchain 1 NF_ACCEPT] in
  let w := ex_net (pre ++ ex_t_delrule :: [ex_t_append]) in
  let w1 := snd (nft_flow_offload_chain ex_indr_none ex_cb_free
                   (ex_t_newchain 1 NF_ACCEPT) FLOW_BLOCK_BIND w) in
  let w2 := snd (nft_flow_offload_rule false ex_t_delrule FLOW_CLS_DESTROY
                   w1) in
  let data := cls_flow_of false ex_t_delrule FLOW_CLS_DESTROY in
  commit_list w = pre ++ ex_t_delrule :: [ex_t_append]
  /\ commit_walk false ex_indr_none ex_cb_free pre 0 w = Ret 0 w1
  /\ fails_with (commit_trans false ex_indr_none ex_cb_free ex_t_delrule 0 w1)
       (-5) w2
  /\ nft_flow_rule_offload_commit false ex_indr_none ex_cb_free w
     = Ret (-5) w2
  /\ block_at 1 w2 = [ex_cb 0 31]
  /\ snd (drv w2)
     = [EvNdoSetupTc (name ex_eth0) FLOW_BLOCK_BIND;
        EvBlockCb 11 TC_SETUP_CLSFLOWER data;
        EvBlockCb 12 TC_SETUP_CLSFLOWER data].
Proof.
  intros pre w w1 w2 data.
  assert (Hf : fails_with
                 (commit_trans false ex_indr_none ex_cb_free ex_t_delrule 0
                    w1)
                 (-5) w2) by (left; split; [reflexivity | lia]).
  destruct (commit_walk_first_failure false ex_indr_none ex_cb_free
              pre [ex_t_append] ex_t_delrule
              w w1 w2 (-5) eq_refl eq_refl Hf) as [Hc _].
  exact (conj eq_refl (conj eq_refl (conj Hf (conj Hc
           (conj eq_refl eq_refl))))).
Defined.

Lemma commit_rejects_insertion_witness :
  let w := ex_net [ex_t_other_family; ex_t_insert] in
  commit_list w = [ex_t_other_family] ++ ex_t_insert :: []
  /\ commit_walk false ex_indr_none ex_cb_free [ex_t_other_family] 0 w
     = Ret 0 w
  /\ msg_type ex_t_insert = NFT_MSG_NEWRULE
  /\ processed ex_t_insert w = true
  /\ not_pure_append ex_t_insert = true
  /\ nft_flow_rule_offload_commit false ex_indr_none ex_cb_free w
     = Ret (- EOPNOTSUPP) w.
Proof.
  intros w.
  destruct (commit_rejects_insertion false ex_indr_none ex_cb_free
              [ex_t_other_family] [] ex_t_insert w w
              eq_refl eq_refl eq_refl eq_refl eq_refl) as [Hc _].
  exact (conj eq_refl (conj eq_refl (conj eq_refl (conj eq_refl
           (conj eq_refl Hc))))).
Defined.

(** A replace-or-insert record of another family is passed over, and the
    commit succeeds; an earlier record that a driver rejects decides the
    error. *)
Lemma commit_insertion_not_rejected :
  let t := ex_t_other_family in
  msg_type t = NFT_MSG_NEWRULE
  /\ chain_offloaded t (ex_net [t]) = true
  /\ not_pure_append t = true
  /\ nft_flow_rule_offload_commit false ex_indr_none ex_cb_free (ex_net [t])
     = Ret 0 (ex_net [t])
  /\ processed ex_t_insert (ex_net [ex_t_delrule; ex_t_insert]) = true
  /\ not_pure_append ex_t_insert = true
  /\ match nft_flow_rule_offload_commit false ex_indr_none ex_cb_free
             (ex_net [ex_t_delrule; ex_t_insert]) with
     | Ret e _ => e = -5
     | Fault => False
     end.
Proof. repeat apply conj; reflexivity. Qed.

Lemma commit_new_chain_policy_witness :
  let ta := ex_t_newchain 1 NF_ACCEPT in
  let td := ex_t_newchain 1 NF_DROP in
  commit_list (ex_net [ta]) = [ta]
  /\ msg_type ta = NFT_MSG_NEWCHAIN
  /\ processed ta (ex_net [ta]) = true
  /\ match nft_flow_rule_offload_commit false ex_indr_none ex_cb_free
             (ex_net [ta]) with
     | Ret e w' => e = 0 /\ block_at 1 w' = [ex_cb 0 31]
     | Fault => False
     end
  /\ commit_list (ex_net [td]) = [td]
  /\ processed td (ex_net [td]) = true
  /\ nft_flow_rule_offload_commit false ex_indr_none ex_cb_free (ex_net [td])
     = Ret (- EOPNOTSUPP) (ex_net [td]).
Proof.
  intros ta td.
  destruct (commit_new_chain_policy false ex_indr_none ex_cb_free ta
              (ex_net [ta]) eq_refl eq_refl eq_refl) as (_ & _ & Hacc).
  destruct (Hacc eq_refl) as [Hc Hdev].
  destruct (Hdev ex_eth0 eq_refl eq_refl) as (_ & _ & Hs).
  destruct (Hs ex_setup_tc eq_refl ltac:(cbn; lia)) as [He Hb].
  destruct (commit_new_chain_policy false ex_indr_none ex_cb_free td
              (ex_net [td]) eq_refl eq_refl eq_refl) as (_ & Hdrop & _).
  assert (Hm : match nft_flow_rule_offload_commit false ex_indr_none
                         ex_cb_free (ex_net [ta]) with
               | Ret e w' => e = 0 /\ block_at 1 w' = [ex_cb 0 31]
               | Fault => False
               end) by (rewrite Hc; exact (conj He Hb)).
  exact (conj eq_refl (conj eq_refl (conj eq_refl (conj Hm (conj eq_refl
           (conj eq_refl (Hdrop eq_refl))))))).
Defined.

(** With policy accept the commit still fails when the device's driver
    refuses the block, or when no driver-agnostic callback registers; with
    policy drop it succeeds when the record is of another family. *)
Lemma commit_new_chain_accept_fails :
  let t := ex_t_newchain 4 NF_ACCEPT in
  let t' := ex_t_newchain 2 NF_ACCEPT in
  let t'' := ex_trans NFT_MSG_NEWCHAIN NFPROTO_IPV4 1%nat 0 None NF_DROP in
  processed t (ex_net [t]) = true
  /\ match nft_flow_rule_offload_commit false ex_indr_none ex_cb_free
             (ex_net [t]) with
     | Ret e _ => e = - EOPNOTSUPP
     | Fault => False
     end
  /\ processed t' (ex_net [t']) = true
  /\ match nft_flow_rule_offload_commit false ex_indr_none ex_cb_free
             (ex_net [t']) with
     | Ret e _ => e = - EOPNOTSUPP
     | Fault => False
     end
  /\ chain_offloaded t'' (ex_net [t'']) = true
  /\ nft_flow_rule_offload_commit false ex_indr_none ex_cb_free (ex_net [t''])
     = Ret 0 (ex_net [t'']).
Proof. repeat apply conj; reflexivity. Qed.

Lemma commit_trans_flow_rule_ownership_witness :
  let w := ex_net [] in
  msg_type ex_t_insert = NFT_MSG_NEWRULE
  /\ processed ex_t_insert w = true
  /\ not_pure_append ex_t_insert = true
  /\ commit_trans false ex_indr_none ex_cb_free ex_t_insert 0 w
     = Return (- EOPNOTSUPP) w
  /\ live (mem w) !! flow_addr ex_flow = Some KNftFlowRule
  /\ msg_type ex_t_append = NFT_MSG_NEWRULE
  /\ processed ex_t_append w = true
  /\ not_pure_append ex_t_append = false
  /\ match commit_trans false ex_indr_none ex_cb_free ex_t_append 0 w with
     | Break e w' =>
         e = -5 /\ live (mem w') !! flow_addr ex_flow = None
         /\ live (mem w') !! rule_addr ex_flow = None
     | _ => False
     end.
Proof.
  intros w.
  destruct (commit_trans_flow_rule_ownership false ex_indr_none ex_cb_free
              ex_t_insert 0 w eq_refl eq_refl) as (Hrej & _ & _).
  destruct (commit_trans_flow_rule_ownership false ex_indr_none ex_cb_free
              ex_t_append 0 w eq_refl eq_refl) as (_ & Hacc & _).
  destruct (Hacc eq_refl ex_flow eq_refl) as (Hc & Hf & Hr).
  assert (Hm : match commit_trans false ex_indr_none ex_cb_free ex_t_append
                         0 w with
               | Break e w' =>
                   e = -5 /\ live (mem w') !! flow_addr ex_flow = None
                   /\ live (mem w') !! rule_addr ex_flow = None
               | _ => False
               end) by (rewrite Hc; exact (conj eq_refl (conj Hf Hr))).
  exact (conj eq_refl (conj eq_refl (conj eq_refl (conj (Hrej eq_refl)
           (conj eq_refl (conj eq_refl (conj eq_refl (conj eq_refl Hm)))))))).
Defined.

(** C7: the late-join path takes the first base chain of a device-family
    table whose device name matches, without looking at
    [NFT_CHAIN_HW_OFFLOAD].  Here chain 5, a base chain on [eth0] that is not
    offloaded, precedes chain 6, the offloaded chain bound to [eth0]: the
    callback is bound to the block of chain 5 and chain 6 never sees it. *)
Theorem late_join_ignores_offload_flag :
  let w := ex_net [] in
  let w' := nft_indr_block_get_and_ing_cmd ex_cb_free ex_eth0 ex_indr_cb 51
              FLOW_BLOCK_BIND w in
  chain_flags (chains w 5%nat) = NFT_BASE_CHAIN
  /\ chain_flags (chains w 6%nat)
     = Z.lor NFT_BASE_CHAIN NFT_CHAIN_HW_OFFLOAD
  /\ dev_name (basechain_of (chains w 5%nat)) = name ex_eth0
  /\ dev_name (basechain_of (chains w 6%nat)) = name ex_eth0
  /\ block_at 6 w = [ex_cb 0 21]
  /\ block_at 5 w' = [ex_cb 0 51]
  /\ block_at 6 w' = [ex_cb 0 21]
  /\ snd (drv w') = [EvIndrCb (name ex_eth0) 51 FLOW_BLOCK_BIND].
Proof. repeat apply conj; reflexivity. Qed.

(** * The further properties on the samples *)

Lemma NFT_OFFLOAD_MATCH_mask_witness :
  0 <= 4 < 2 ^ 32
  /\ (Z.to_nat 4 <= length (reg_mask zero_reg))%nat
  /\ exists reg',
       NFT_OFFLOAD_MATCH (2 ^ 32 + 7) 8 12 4 zero_reg = Some reg'
       /\ reg_key reg' = 7
       /\ reg_len reg' = 4
       /\ reg_mask reg' !! 3%nat = Some xff
       /\ reg_mask reg' !! 4%nat = Some x00.
Proof.
  assert (H1 : 0 <= 4 < 2 ^ 32) by lia.
  assert (H2 : (Z.to_nat 4 <= length (reg_mask zero_reg))%nat) by (cbn; lia).
  destruct (NFT_OFFLOAD_MATCH_mask (2 ^ 32 + 7) 8 12 4 zero_reg H1 H2)
    as (reg' & Hr & Hkey & Hlen & _ & _ & _ & Hff & Hold).
  refine (conj H1 (conj H2 _)). exists reg'.
  refine (conj Hr (conj Hkey (conj Hlen (conj (Hff 3%nat _) _))));
    [cbn; lia|].
  rewrite (Hold 4%nat) by (cbn; lia). reflexivity.
Defined.

Lemma NFT_OFFLOAD_MATCH_no_shrink_witness :
  let reg1 := {| reg_key := 7; reg_len := 4; reg_base_offset := 8;
                 reg_offset := 12;
                 reg_mask := repeat xff 4 ++ repeat x00 12 |} in
  let reg2 := {| reg_key := 9; reg_len := 2; reg_base_offset := 16;
                 reg_offset := 18;
                 reg_mask := repeat xff 4 ++ repeat x00 12 |} in
  0 <= 2 <= 4 /\ 4 < 2 ^ 32
  /\ NFT_OFFLOAD_MATCH 7 8 12 4 zero_reg = Some reg1
  /\ NFT_OFFLOAD_MATCH 9 16 18 2 reg1 = Some reg2
  /\ reg_len reg2 = 2
  /\ reg_mask reg2 = reg_mask reg1.
Proof.
  intros reg1 reg2.
  assert (H1 : 0 <= 2 <= 4) by lia.
  assert (H2 : 4 < 2 ^ 32) by lia.
  destruct (NFT_OFFLOAD_MATCH_no_shrink 7 8 12 4 9 16 18 2 zero_reg reg1 reg2
              H1 H2 eq_refl eq_refl) as [Hlen Hmask].
  exact (conj H1 (conj H2 (conj eq_refl (conj eq_refl (conj Hlen Hmask))))).
Defined.

Lemma nft_flow_rule_create_success_allocates_witness :
  nft_flow_rule_create ex_rule ex_mem = (inl ex_flow_compiled, ex_mem_compiled)
  /\ flow_addr ex_flow_compiled <> rule_addr ex_flow_compiled
  /\ num_entries ex_flow_compiled = 1
  /\ live ex_mem_compiled
     = <[rule_addr ex_flow_compiled := KFlowRule 1]>
         (<[flow_addr ex_flow_compiled := KNftFlowRule]> ∅).
Proof.
  assert (Hc : nft_flow_rule_create ex_rule ex_mem
               = (inl ex_flow_compiled, ex_mem_compiled)) by reflexivity.
  destruct (nft_flow_rule_create_success_allocates ex_rule ex_mem
              ex_mem_compiled ex_flow_compiled Hc)
    as (_ & _ & Hne & Hn & _ & Hlive).
  exact (conj Hc (conj Hne (conj Hn Hlive))).
Defined.

Lemma nft_flow_rule_create_destroy_witness :
  nft_flow_rule_create ex_rule ex_mem = (inl ex_flow_compiled, ex_mem_compiled)
  /\ live (nft_flow_rule_destroy ex_flow_compiled ex_mem_compiled)
     = live ex_mem.
Proof.
  assert (Hc : nft_flow_rule_create ex_rule ex_mem
               = (inl ex_flow_compiled, ex_mem_compiled)) by reflexivity.
  exact (conj Hc (nft_flow_rule_create_destroy ex_rule ex_mem ex_mem_compiled
                    ex_flow_compiled Hc)).
Defined.

Lemma nft_flow_rule_create_stops_at_null_ops_witness :
  ops ex_null = None
  /\ nft_flow_rule_create
       {| exprs := [ex_match; ex_verdict] ++ ex_null :: [ex_counter] |} ex_mem
     = nft_flow_rule_create ex_rule ex_mem.
Proof.
  exact (conj eq_refl
           (nft_flow_rule_create_stops_at_null_ops [ex_match; ex_verdict]
              [ex_counter] ex_null ex_mem eq_refl)).
Defined.

Lemma nft_flow_rule_create_alloc_failure_witness :
  allocs_succeed 2 (Kmem ∅ [false; true]) = false
  /\ exists m',
       nft_flow_rule_create ex_rule (Kmem ∅ [false; true])
       = (inr (- ENOMEM), m')
       /\ live m' = ∅.
Proof.
  exact (conj eq_refl
           (nft_flow_rule_create_alloc_failure ex_rule (Kmem ∅ [false; true])
              eq_refl)).
Defined.

Lemma nft_flow_rule_create_error_witness :
  nft_flow_rule_create ex_rule_invalid ex_mem = (inr (-22), ex_mem)
  /\ -22 < 0.
Proof.
  assert (Hc : nft_flow_rule_create ex_rule_invalid ex_mem
               = (inr (-22), ex_mem)) by reflexivity.
  destruct (nft_flow_rule_create_error ex_rule_invalid ex_mem ex_mem (-22) Hc)
    as [Hneg _].
  exact (conj Hc Hneg).
Defined.

Lemma nft_flow_rule_create_proto_unset_witness :
  let rule : XRule := {| exprs := [ex_verdict; ex_verdict] |} in
  Forall keeps_l3num (exprs rule)
  /\ exists flow m',
       nft_flow_rule_create rule ex_mem = (inl flow, m')
       /\ num_entries flow = 2
       /\ proto (body flow) = (x00, x00).
Proof.
  intros rule.
  assert (Hk : keeps_l3num ex_verdict).
  { intros o f ctx flow Ho Hf. injection Ho as <-. injection Hf as <-.
    reflexivity. }
  assert (HF : Forall keeps_l3num (exprs rule))
    by (repeat constructor; exact Hk).
  destruct (nft_flow_rule_create rule ex_mem) as [[flow|err] m'] eqn:Hc;
    [|discriminate Hc].
  pose proof (nft_flow_rule_create_proto_unset rule ex_mem m' flow HF Hc)
    as Hp.
  refine (conj HF _). exists flow, m'.
  refine (conj eq_refl (conj _ Hp)).
  injection Hc as <- _. reflexivity.
Defined.

Lemma nft_flow_offload_rule_effects_witness :
  let w := ex_net [] in
  nft_is_base_chain (chains w (ctx_chain ex_t_regular)) = false
  /\ nft_flow_offload_rule false ex_t_regular FLOW_CLS_REPLACE w
     = (- EOPNOTSUPP, w)
  /\ fst (nft_flow_offload_rule false ex_t_append FLOW_CLS_REPLACE w) <= 0
  /\ chains (snd (nft_flow_offload_rule false ex_t_append FLOW_CLS_REPLACE w))
     = chains w.
Proof.
  intros w.
  destruct (nft_flow_offload_rule_effects false ex_t_regular FLOW_CLS_REPLACE
              w) as (_ & _ & _ & _ & _ & _ & Hreg).
  destruct (nft_flow_offload_rule_effects false ex_t_append FLOW_CLS_REPLACE
              w) as (Hn & _ & Hch & _).
  exact (conj eq_refl (conj (Hreg eq_refl) (conj Hn Hch))).
Defined.

Lemma nft_flow_offload_chain_direct_failure_witness :
  let t := ex_t_newchain 4 NF_ACCEPT in
  let w := ex_net [t] in
  let res := nft_flow_offload_chain ex_indr_none ex_cb_free t FLOW_BLOCK_BIND
               w in
  nft_is_base_chain (chains w (ctx_chain t)) = true
  /\ ops_dev (basechain_of (chains w (ctx_chain t))) = Some ex_eth2
  /\ ndo_setup_tc ex_eth2 = Some ex_setup_tc_unsupported
  /\ fst res = - EOPNOTSUPP
  /\ block_at 4 (snd res) = []
  /\ drv (snd res) = (1%nat, [EvNdoSetupTc (name ex_eth2) FLOW_BLOCK_BIND]).
Proof.
  intros t w res.
  destruct (nft_flow_offload_chain_direct_failure ex_indr_none ex_cb_free t
              FLOW_BLOCK_BIND w ex_eth2 ex_setup_tc_unsupported
              eq_refl eq_refl eq_refl (or_intror eq_refl)
              ltac:(reflexivity)) as (H1 & H2 & H3).
  exact (conj eq_refl (conj eq_refl (conj eq_refl (conj H1 (conj H2 H3))))).
Defined.

Lemma nft_flow_offload_chain_direct_unbind_witness :
  let t := ex_t_delchain 8 NF_DROP in
  let w := ex_net_rt [t] in
  let res := nft_flow_offload_chain ex_indr_none ex_cb_free t
               FLOW_BLOCK_UNBIND w in
  nft_is_base_chain (chains w (ctx_chain t)) = true
  /\ ops_dev (basechain_of (chains w (ctx_chain t))) = Some ex_eth3
  /\ ndo_setup_tc ex_eth3 = Some ex_setup_tc_rt
  /\ nft_trans_chain_policy t = NF_DROP
  /\ fst res = 0
  /\ block_at 8 (snd res) = [ex_cb 0 61]
  /\ snd (drv (snd res))
     = [EvNdoSetupTc (name ex_eth3) FLOW_BLOCK_UNBIND; EvBlockCbFree 31].
Proof.
  intros t w res.
  destruct (nft_flow_offload_chain_direct_unbind ex_indr_none ex_cb_free t w
              ex_eth3 ex_setup_tc_rt eq_refl eq_refl eq_refl
              ltac:(vm_compute; discriminate)) as (H1 & H2 & H3).
  exact (conj eq_refl (conj eq_refl (conj eq_refl (conj eq_refl
           (conj H1 (conj H2 H3)))))).
Defined.

Lemma nft_flow_offload_chain_indirect_unbind_witness :
  let t := ex_t_delchain 2 NF_DROP in
  let w := ex_net [t] in
  nft_is_base_chain (chains w (ctx_chain t)) = true
  /\ ops_dev (basechain_of (chains w (ctx_chain t))) = Some ex_eth1
  /\ ndo_setup_tc ex_eth1 = None
  /\ fst (nft_flow_offload_chain ex_indr_none ex_cb_free t FLOW_BLOCK_UNBIND
            w) = - EOPNOTSUPP
  /\ fst (nft_flow_offload_chain ex_indr_one ex_cb_free t FLOW_BLOCK_UNBIND w)
     = 0
  /\ snd (drv (snd (nft_flow_offload_chain ex_indr_one ex_cb_free t
                      FLOW_BLOCK_UNBIND w)))
     = [EvIndrBlockCall (name ex_eth1) FLOW_BLOCK_UNBIND; EvBlockCbFree 41].
Proof.
  intros t w.
  destruct (nft_flow_offload_chain_indirect_unbind ex_indr_none ex_cb_free t
              w ex_eth1 eq_refl eq_refl eq_refl) as (_ & Hnone & _).
  destruct (nft_flow_offload_chain_indirect_unbind ex_indr_one ex_cb_free t
              w ex_eth1 eq_refl eq_refl eq_refl) as (_ & _ & Hone).
  destruct (Hnone eq_refl) as [H1 _].
  destruct (Hone ltac:(discriminate)) as [H2 H3].
  exact (conj eq_refl (conj eq_refl (conj eq_refl (conj H1 (conj H2 H3))))).
Defined.

Lemma nft_flow_offload_chain_bind_unbind_witness :
  let t1 := ex_t_newchain 7 NF_ACCEPT in
  let t2 := ex_t_delchain 7 NF_DROP in
  let w := ex_net_rt [t1; t2] in
  let w1 := snd (nft_flow_offload_chain ex_indr_none ex_cb_free t1
                   FLOW_BLOCK_BIND w) in
  let res := nft_flow_offload_chain ex_indr_none ex_cb_free t2
               FLOW_BLOCK_UNBIND w1 in
  ctx_chain t2 = ctx_chain t1
  /\ nft_is_base_chain (chains w (ctx_chain t1)) = true
  /\ ops_dev (basechain_of (chains w (ctx_chain t1))) = Some ex_eth3
  /\ ndo_setup_tc ex_eth3 = Some ex_setup_tc_rt
  /\ block_at 7 w = [ex_cb 0 61]
  /\ block_at 7 w1 = [ex_cb 0 31; ex_cb 0 61]
  /\ fst res = 0
  /\ block_at 7 (snd res) = [ex_cb 0 61]
  /\ snd (drv (snd res))
     = [EvNdoSetupTc (name ex_eth3) FLOW_BLOCK_BIND;
        EvNdoSetupTc (name ex_eth3) FLOW_BLOCK_UNBIND;
        EvBlockCbFree 31].
Proof.
  intros t1 t2 w w1 res.
  destruct (nft_flow_offload_chain_bind_unbind ex_indr_none ex_cb_free t1 t2
              w ex_eth3 ex_setup_tc_rt eq_refl eq_refl eq_refl eq_refl
              eq_refl ltac:(vm_compute; discriminate) eq_refl
              ltac:(vm_compute; discriminate) eq_refl eq_refl)
    as (H1 & H2 & H3 & H4).
  exact (conj eq_refl (conj eq_refl (conj eq_refl (conj eq_refl
           (conj eq_refl (conj H1 (conj H2 (conj H3 H4)))))))).
Defined.

Lemma late_join_no_match_witness :
  let w := ex_net [] in
  netdev_chains (tables w) = [0%nat; 5%nat; 6%nat]
  /\ dev_name (basechain_of (chains w 0%nat)) = name ex_eth1
  /\ forallb (fun c => negb (late_join_match ex_eth1 w c))
       (netdev_chains (tables w)) = true
  /\ nft_indr_block_get_and_ing_cmd ex_cb_free ex_eth1 ex_indr_cb 51
       FLOW_BLOCK_BIND w = w.
Proof.
  intros w.
  exact (conj eq_refl (conj eq_refl (conj eq_refl
           (late_join_no_match ex_cb_free ex_eth1 ex_indr_cb 51
              FLOW_BLOCK_BIND w eq_refl)))).
Defined.

Lemma late_join_first_match_witness :
  let w := ex_net_rt [] in
  let w' := nft_indr_block_get_and_ing_cmd ex_cb_free ex_eth3 ex_indr_cb 51
              FLOW_BLOCK_BIND w in
  netdev_chains (tables w) = [] ++ 7%nat :: [8%nat]
  /\ late_join_match ex_eth3 w 7%nat = true
  /\ block_at 7 w' = [ex_cb 0 51; ex_cb 0 61]
  /\ chains w' 8%nat = chains w 8%nat
  /\ drv w' = (1%nat, [EvIndrCb (name ex_eth3) 51 FLOW_BLOCK_BIND]).
Proof.
  intros w w'.
  destruct (late_join_first_match ex_cb_free ex_eth3 ex_indr_cb 51
              FLOW_BLOCK_BIND w [] [8%nat] 7%nat eq_refl eq_refl eq_refl)
    as (Hother & _ & _ & _ & _ & Hblock & Hdrv).
  exact (conj eq_refl (conj eq_refl (conj Hblock
           (conj (Hother 8%nat ltac:(discriminate)) Hdrv)))).
Defined.

Lemma commit_never_positive_witness :
  let w := ex_net [ex_t_delrule] in
  nft_flow_rule_offload_commit false ex_indr_none ex_cb_free w
  = Ret (-5) (ex_after w)
  /\ -5 <= 0.
Proof.
  intros w.
  assert (Hc : nft_flow_rule_offload_commit false ex_indr_none ex_cb_free w
               = Ret (-5) (ex_after w)) by reflexivity.
  exact (conj Hc (commit_never_positive false ex_indr_none ex_cb_free w
                    (ex_after w) (-5) Hc)).
Defined.

Lemma commit_leaves_registry_witness :
  nft_flow_rule_offload_commit false ex_indr_none ex_cb_free ex_net_ok
  = Ret 0 (ex_after ex_net_ok)
  /\ tables (ex_after ex_net_ok) = tables ex_net_ok
  /\ commit_list (ex_after ex_net_ok) = commit_list ex_net_ok
  /\ (live (mem (ex_after ex_net_ok)) ⊆ live (mem ex_net_ok))
  /\ dev_name (basechain_of (chains (ex_after ex_net_ok) 1%nat))
     = name ex_eth0
  /\ block_at 1 (ex_after ex_net_ok) = [ex_cb 0 31].
Proof.
  assert (Hc : nft_flow_rule_offload_commit false ex_indr_none ex_cb_free
                 ex_net_ok = Ret 0 (ex_after ex_net_ok)) by reflexivity.
  destruct (commit_leaves_registry false ex_indr_none ex_cb_free ex_net_ok
              (ex_after ex_net_ok) 0 Hc) as (Ht & Hl & _ & Hm & Hch).
  destruct (Hch 1%nat) as (_ & _ & Hname).
  exact (conj Hc (conj Ht (conj Hl (conj Hm (conj Hname eq_refl))))).
Defined.

Lemma commit_untouched_chain_witness :
  forallb (fun t => negb (binds_chain 6 t)) (commit_list ex_net_ok) = true
  /\ nft_flow_rule_offload_commit false ex_indr_none ex_cb_free ex_net_ok
     = Ret 0 (ex_after ex_net_ok)
  /\ chains (ex_after ex_net_ok) 6%nat = chains ex_net_ok 6%nat.
Proof.
  assert (Hc : nft_flow_rule_offload_commit false ex_indr_none ex_cb_free
                 ex_net_ok = Ret 0 (ex_after ex_net_ok)) by reflexivity.
  exact (conj eq_refl (conj Hc
           (commit_untouched_chain false ex_indr_none ex_cb_free ex_net_ok
              (ex_after ex_net_ok) 0 6%nat eq_refl Hc))).
Defined.

Lemma commit_all_skipped_witness :
  let w := ex_net [ex_t_other_family; ex_t_regular] in
  forallb (fun t => negb (processed t w)) (commit_list w) = true
  /\ nft_flow_rule_offload_commit false ex_indr_none ex_cb_free w = Ret 0 w.
Proof.
  intros w.
  exact (conj eq_refl
           (commit_all_skipped false ex_indr_none ex_cb_free w eq_refl)).
Defined.

Lemma commit_fault_cause_witness :
  let w := ex_net [ex_t_other_family; ex_t_append_null] in
  nft_flow_rule_offload_commit false ex_indr_none ex_cb_free w = Fault
  /\ exists t,
       In t (commit_list w) /\ msg_type t = NFT_MSG_NEWRULE
       /\ trans_flow_rule t = None.
Proof.
  intros w.
  destruct (commit_fault_cause false ex_indr_none ex_cb_free w eq_refl)
    as (t & Hin & Hm & _ & _ & Hnull).
  refine (conj eq_refl _). exists t. exact (conj Hin (conj Hm Hnull)).
Defined.

Lemma commit_success_frees_flow_rules_witness :
  nft_flow_rule_offload_commit false ex_indr_none ex_cb_free ex_net_ok
  = Ret 0 (ex_after ex_net_ok)
  /\ In ex_t_append_ok (commit_list ex_net_ok)
  /\ msg_type ex_t_append_ok = NFT_MSG_NEWRULE
  /\ processed ex_t_append_ok ex_net_ok = true
  /\ live (mem ex_net_ok) !! flow_addr ex_flow = Some KNftFlowRule
  /\ live (mem (ex_after ex_net_ok)) !! flow_addr ex_flow = None
  /\ live (mem (ex_after ex_net_ok)) !! rule_addr ex_flow = None.
Proof.
  assert (Hc : nft_flow_rule_offload_commit false ex_indr_none ex_cb_free
                 ex_net_ok = Ret 0 (ex_after ex_net_ok)) by reflexivity.
  assert (Hin : In ex_t_append_ok (commit_list ex_net_ok))
    by (right; right; left; reflexivity).
  destruct (commit_success_frees_flow_rules false ex_indr_none ex_cb_free
              ex_net_ok (ex_after ex_net_ok) ex_t_append_ok Hc Hin
              eq_refl eq_refl) as (flow & Hflow & Hf & Hr).
  injection Hflow as <-.
  exact (conj Hc (conj Hin (conj eq_refl (conj eq_refl (conj eq_refl
           (conj Hf Hr)))))).
Defined.
